(** * ai2business.kpi_collector.finance_collector: Builder / Director accumulation

    A shallow embedding of [finance_collector.py].  Python objects live in a
    heap of mutable records addressed by location; a method is a function from
    its receiver (a location) to a computation in a state-and-exception monad.
    Python's [dict] is an insertion-ordered association list. *)

From Stdlib Require Import String List.
From stdpp Require Import base option list strings gmap fin_maps.

Open Scope string_scope.
Open Scope list_scope.

(** ** Python values, exceptions, outcomes *)

(** The values the collector moves around: [pd.DataFrame] or [dict] results
    (and [None], strings such as an ISIN code). *)
#[warnings="-register-all"] Inductive pyvalue : Type :=
| PyNone
| PyStr (s : string)
| PyDataFrame (columns : list string) (rows : list (list string))
| PyDict (items : list (string * pyvalue)).

(** Exceptions.  [AttributeError t a] is Python's
    ['t' object has no attribute 'a'].  [BackendError] stands for whatever
    the yfinance library raises.  [InvalidReference] only arises on a heap
    that lacks the location a reference points to; Python never builds one. *)
Inductive exn : Type :=
| AttributeError (type_name attr : string)
| BackendError (msg : string)
| InvalidReference.

Inductive outcome (A : Type) : Type :=
| Return (a : A)
| Raise (e : exn).
Arguments Return {A} a.
Arguments Raise {A} e.

#[global] Instance outcome_ret : MRet outcome := λ A a, Return a.
#[global] Instance outcome_bind : MBind outcome := λ A B f m,
  match m with
  | Return a => f a
  | Raise e => Raise e
  end.

(** ** Python's insertion-ordered [dict] with string keys *)

Abbreviation pydict V := (list (string * V)).

(** [d[k] = v]: an existing key keeps its position and gets the new value, a
    new key goes to the end. *)
Fixpoint setitem {V : Type} (k : string) (v : V) (d : pydict V) : pydict V :=
  match d with
  | [] => [(k, v)]
  | (k', v') :: d' =>
      if decide (k' = k) then (k', v) :: d' else (k', v') :: setitem k v d'
  end.

(** [d.get(k)] *)
Fixpoint getitem {V : Type} (k : string) (d : pydict V) : option V :=
  match d with
  | [] => None
  | (k', v') :: d' => if decide (k' = k) then Some v' else getitem k d'
  end.

(** Iterating a dict yields its keys in insertion order. *)
Definition keys {V : Type} (d : pydict V) : list string := d.*1.

(** The finite map a dict denotes. *)
Definition to_gmap {V : Type} (d : pydict V) : gmap string V := list_to_map d.

(** [{k: f(k) for k in ks}] for a fallible [f], evaluated left to right; the
    first exception ends the comprehension. *)
Fixpoint dict_comprehension {V : Type} (f : string → outcome V)
    (ks : list string) (acc : pydict V) : outcome (pydict V) :=
  match ks with
  | [] => Return acc
  | k :: ks' => v ← f k; dict_comprehension f ks' (setitem k v acc)
  end.

(** ** The heap *)

Definition loc := positive.

(** A reference-valued attribute: [None] is Python's [None]. *)
Abbreviation pyref := (option loc).

(** What [self.tickers] can hold.  [__init__] stores a builtin [dict] from
    [str(isin)] to [yf.Ticker(isin)]; [all_trickers] is annotated to take a
    [yf.Tickers] session, given here by the field names of the namedtuple in
    its [tickers] attribute.  A [yf.Ticker] object is identified by the string
    that selects it: in the dict the argument it was made from, in a session
    the name of the field that holds it.  What symbol the library derives
    from that string (it upper-cases, and renames fields that are no
    identifiers) stays inside the backend. *)
Inductive handle : Type :=
| DictOfTicker (d : pydict string)
| YfTickers (fields : list string).

Record FinanceProduct : Type := MkFinanceProduct {
  product_parts : pydict pyvalue
}.

Record DesignerFinanceCollector : Type := MkDesigner {
  keyword_list : list string;
  tickers : handle;
  df : pyvalue;
  dict : pydict pyvalue;
  _product : pyref   (* [None]: attribute not assigned yet *)
}.

Record FinanceCollector : Type := MkCollector {
  _builder : pyref
}.

Inductive object : Type :=
| ObjProduct (p : FinanceProduct)
| ObjBuilder (b : DesignerFinanceCollector)
| ObjDirector (d : FinanceCollector).

Definition class_name (o : object) : string :=
  match o with
  | ObjProduct _ => "FinanceProduct"
  | ObjBuilder _ => "DesignerFinanceCollector"
  | ObjDirector _ => "FinanceCollector"
  end.

Abbreviation heap := (gmap loc object).

(** Computations: read and write the heap, return or raise. *)
Definition py (A : Type) : Type := heap → outcome A * heap.

#[global] Instance py_ret : MRet py := λ A a h, (Return a, h).
#[global] Instance py_bind : MBind py := λ A B f m h,
  match m h with
  | (Return a, h') => f a h'
  | (Raise e, h') => (Raise e, h')
  end.

Definition raise {A : Type} (e : exn) : py A := λ h, (Raise e, h).

Definition lift {A : Type} (r : outcome A) : py A := λ h, (r, h).

(** Object creation: a location not in use. *)
Definition alloc (o : object) : py loc := λ h,
  let l := fresh (dom h) in (Return l, <[l := o]> h).

(** Typed access to the object behind [self]; [attr] is the attribute being
    looked up, reported when the object is of another class. *)
Definition load_product (self : loc) (attr : string) : py FinanceProduct := λ h,
  match h !! self with
  | Some (ObjProduct p) => (Return p, h)
  | Some o => (Raise (AttributeError (class_name o) attr), h)
  | None => (Raise InvalidReference, h)
  end.

Definition load_builder (self : loc) (attr : string) : py DesignerFinanceCollector := λ h,
  match h !! self with
  | Some (ObjBuilder b) => (Return b, h)
  | Some o => (Raise (AttributeError (class_name o) attr), h)
  | None => (Raise InvalidReference, h)
  end.

Definition load_director (self : loc) (attr : string) : py FinanceCollector := λ h,
  match h !! self with
  | Some (ObjDirector d) => (Return d, h)
  | Some o => (Raise (AttributeError (class_name o) attr), h)
  | None => (Raise InvalidReference, h)
  end.

Definition store (self : loc) (o : object) : py unit := λ h,
  (Return tt, <[self := o]> h).

(** ** class FinanceProduct *)

(** A function object, as far as [add_product] looks at it: its [__name__].
    [func_id] tells apart distinct functions that carry the same name. *)
Record callable : Type := MkCallable {
  __name__ : string;
  func_id : nat
}.

(** [FinanceProduct()]: [self.product_parts = {}] *)
Definition new_FinanceProduct : py loc :=
  alloc (ObjProduct (MkFinanceProduct [])).

(** [self.product_parts[key.__name__] = value] *)
Definition add_product (self : loc) (key : callable) (value : pyvalue) : py unit :=
  p ← load_product self "product_parts";
  store self (ObjProduct (MkFinanceProduct (setitem (__name__ key) value (product_parts p)))).

(** [f"Product parts: {', '.join(self.product_parts)}"] *)
Definition list_product_parts (self : loc) : py string :=
  p ← load_product self "product_parts";
  mret ("Product parts: " +:+ String.concat ", " (keys (product_parts p))).

(** [return self.product_parts] *)
Definition return_product (self : loc) : py (pydict pyvalue) :=
  p ← load_product self "product_parts";
  mret (product_parts p).

(** ** The yfinance backend, as far as the collector uses it *)

(** Keyword arguments of [Tickers.history]. *)
Record history_args : Type := MkHistoryArgs {
  period : string;
  interval : string;
  start : option string;
  end_ : option string;
  prepost : bool;
  actions : bool;
  auto_adjust : bool;
  proxy : option string;
  threads : bool;
  group_by : string;
  progress : bool;
  kwargs : pydict pyvalue
}.

(** [ticker_attr s func] is [getattr(t, func)] for the [yf.Ticker] object [t]
    that [s] selects; [tickers_history fields args] is the [history] method of
    the session with these fields, called with the keyword arguments [args].
    [namedtuple_attr name] describes what the namedtuple class has besides its
    fields: [None] when it has no attribute called [name], [Some member] when
    it has one ([count], [index], [_fields], [_asdict], ...), [member func]
    being [getattr] of that attribute. *)
Record Backend : Type := MkBackend {
  ticker_attr : string → string → outcome pyvalue;
  tickers_history : list string → history_args → outcome pyvalue;
  namedtuple_attr : string → option (string → outcome pyvalue)
}.

(** [tickers.tickers]: a builtin dict has no such attribute; a [yf.Tickers]
    session holds a namedtuple with one field per ticker. *)
Definition getattr_tickers (t : handle) : outcome (list string) :=
  match t with
  | DictOfTicker _ => Raise (AttributeError "dict" "tickers")
  | YfTickers fields => Return fields
  end.

(** [getattr(namedtuple, keyword)], as the object's own [getattr]: a field
    gives its [yf.Ticker], any other attribute of the namedtuple class gives
    that attribute, and a name that is neither raises. *)
Definition getattr_field (yf : Backend) (fields : list string) (keyword : string) :
    outcome (string → outcome pyvalue) :=
  if decide (keyword ∈ fields) then Return (ticker_attr yf keyword)
  else match namedtuple_attr yf keyword with
       | Some member => Return member
       | None => Raise (AttributeError "Tickers" keyword)
       end.

(** [tickers.history]: again absent on a builtin dict. *)
Definition getattr_history (yf : Backend) (t : handle) : outcome (history_args → outcome pyvalue) :=
  match t with
  | DictOfTicker _ => Raise (AttributeError "dict" "history")
  | YfTickers fields => Return (tickers_history yf fields)
  end.

(** ** class DesignerFinanceCollector *)

Definition set_df (v : pyvalue) (b : DesignerFinanceCollector) : DesignerFinanceCollector :=
  MkDesigner (keyword_list b) (tickers b) v (dict b) (_product b).

Definition set_dict (d : pydict pyvalue) (b : DesignerFinanceCollector) : DesignerFinanceCollector :=
  MkDesigner (keyword_list b) (tickers b) (df b) d (_product b).

Definition set_product (p : pyref) (b : DesignerFinanceCollector) : DesignerFinanceCollector :=
  MkDesigner (keyword_list b) (tickers b) (df b) (dict b) p.

(** [self._product = FinanceProduct()] *)
Definition reset (self : loc) : py unit :=
  p ← new_FinanceProduct;
  b ← load_builder self "_product";
  store self (ObjBuilder (set_product (Some p) b)).

(** [{str(isin): yf.Ticker(isin) for isin in self.keyword_list}] *)
Definition ticker_dict (keyword_list : list string) : pydict string :=
  foldl (λ d isin, setitem isin isin d) [] keyword_list.

(** [DesignerFinanceCollector(keyword_list)] *)
Definition new_DesignerFinanceCollector (keyword_list : list string) : py loc :=
  self ← alloc (ObjBuilder
    (MkDesigner keyword_list (DictOfTicker (ticker_dict keyword_list))
       (PyDataFrame [] []) [] None));
  reset self;;
  mret self.

(** The [stock] property:
    [product = self._product; self.reset(); return product] *)
Definition stock (self : loc) : py loc :=
  b ← load_builder self "_product";
  match _product b with
  | None => raise (AttributeError "DesignerFinanceCollector" "_product")
  | Some product => reset self;; mret product
  end.

(** The static method:
    [{keyword: getattr(getattr(tickers.tickers, keyword), func)
      for keyword in keyword_list}] *)
Definition all_trickers (yf : Backend) (tickers : handle)
    (keyword_list : list string) (func : string) : outcome (pydict pyvalue) :=
  dict_comprehension
    (λ keyword,
       fields ← getattr_tickers tickers;
       member ← getattr_field yf fields keyword;
       member func)
    keyword_list [].

(** [self.df = self.tickers.history(...)], every argument passed on by keyword *)
Definition get_chart_history (yf : Backend) (args : history_args) (self : loc) : py unit :=
  b ← load_builder self "tickers";
  history ← lift (getattr_history yf (tickers b));
  v ← lift (history args);
  store self (ObjBuilder (set_df v b)).

(** The body shared by the twenty remaining methods:
    [self.dict = self.all_trickers(tickers=self.tickers,
                                   keyword_list=self.keyword_list, func=func)] *)
Definition assign_all_trickers (yf : Backend) (func : string) (self : loc) : py unit :=
  b ← load_builder self "all_trickers";
  d ← lift (all_trickers yf (tickers b) (keyword_list b) func);
  store self (ObjBuilder (set_dict d b)).

Definition get_isin_code yf := assign_all_trickers yf "isin".
Definition get_major_holders yf := assign_all_trickers yf "major_holders".
Definition get_institutional_holders yf := assign_all_trickers yf "institutional_holders".
Definition get_mutualfund_holders yf := assign_all_trickers yf "mutualfund_holders".
Definition get_dividends yf := assign_all_trickers yf "dividends".
Definition get_splits yf := assign_all_trickers yf "splits".
Definition get_actions yf := assign_all_trickers yf "actions".
Definition get_info yf := assign_all_trickers yf "info".
Definition get_calendar yf := assign_all_trickers yf "calendar".
Definition get_recommendations yf := assign_all_trickers yf "recommendations".
Definition get_earnings yf := assign_all_trickers yf "earnings".
Definition get_quarterly_earnings yf := assign_all_trickers yf "quarterly_earnings".
Definition get_financials yf := assign_all_trickers yf "financials".
Definition get_quarterly_financials yf := assign_all_trickers yf "quarterly_financials".
Definition get_balancesheet yf := assign_all_trickers yf "balancesheet".
Definition get_quarterly_balancesheet yf := assign_all_trickers yf "quarterly_balancesheet".
Definition get_cashflow yf := assign_all_trickers yf "cashflow".
Definition get_quarterly_cashflow yf := assign_all_trickers yf "quarterly_cashflow".
Definition get_sustainability yf := assign_all_trickers yf "sustainability".
Definition get_options yf := assign_all_trickers yf "options".

(** The abstract methods of [BuilderFinanceCollector], one constructor each. *)
Inductive method : Type :=
| chart_history (args : history_args)
| isin_code | major_holders | institutional_holders | mutualfund_holders
| dividends | splits | actions_ | info | calendar | recommendations
| earnings | quarterly_earnings | financials | quarterly_financials
| balancesheet | quarterly_balancesheet | cashflow | quarterly_cashflow
| sustainability | options.

(** [get_X.__name__] *)
Definition get_name (m : method) : string :=
  match m with
  | chart_history _ => "get_chart_history"
  | isin_code => "get_isin_code"
  | major_holders => "get_major_holders"
  | institutional_holders => "get_institutional_holders"
  | mutualfund_holders => "get_mutualfund_holders"
  | dividends => "get_dividends"
  | splits => "get_splits"
  | actions_ => "get_actions"
  | info => "get_info"
  | calendar => "get_calendar"
  | recommendations => "get_recommendations"
  | earnings => "get_earnings"
  | quarterly_earnings => "get_quarterly_earnings"
  | financials => "get_financials"
  | quarterly_financials => "get_quarterly_financials"
  | balancesheet => "get_balancesheet"
  | quarterly_balancesheet => "get_quarterly_balancesheet"
  | cashflow => "get_cashflow"
  | quarterly_cashflow => "get_quarterly_cashflow"
  | sustainability => "get_sustainability"
  | options => "get_options"
  end.

(** The implementation [DesignerFinanceCollector] gives each of them. *)
Definition get (yf : Backend) (m : method) : loc → py unit :=
  match m with
  | chart_history args => get_chart_history yf args
  | isin_code => get_isin_code yf
  | major_holders => get_major_holders yf
  | institutional_holders => get_institutional_holders yf
  | mutualfund_holders => get_mutualfund_holders yf
  | dividends => get_dividends yf
  | splits => get_splits yf
  | actions_ => get_actions yf
  | info => get_info yf
  | calendar => get_calendar yf
  | recommendations => get_recommendations yf
  | earnings => get_earnings yf
  | quarterly_earnings => get_quarterly_earnings yf
  | financials => get_financials yf
  | quarterly_financials => get_quarterly_financials yf
  | balancesheet => get_balancesheet yf
  | quarterly_balancesheet => get_quarterly_balancesheet yf
  | cashflow => get_cashflow yf
  | quarterly_cashflow => get_quarterly_cashflow yf
  | sustainability => get_sustainability yf
  | options => get_options yf
  end.

(** ** class FinanceCollector *)

(** [FinanceCollector()]: [self._builder = None] *)
Definition new_FinanceCollector : py loc :=
  alloc (ObjDirector (MkCollector None)).

(** The [builder] property: [return self._builder] *)
Definition builder (self : loc) : py pyref :=
  d ← load_director self "_builder";
  mret (_builder d).

(** The [builder] setter: [self._builder = builder] *)
Definition builder_setter (self : loc) (builder : pyref) : py unit :=
  _ ← load_director self "_builder";
  store self (ObjDirector (MkCollector builder)).

(** [target.name()]: attribute lookup on [None] or on an object of another
    class raises; on a builder it runs the method. *)
Definition call_method (target : pyref) (name : string) (body : loc → py unit) : py unit :=
  match target with
  | None => raise (AttributeError "NoneType" name)
  | Some l => _ ← load_builder l name; body l
  end.

(** The defaults of [find_chart_histogram]'s parameters. *)
Definition default_history_args : history_args :=
  MkHistoryArgs "1mo" "1d" None None false true true None true "column" true [].

(** [self.builder.get_chart_history(period=period, ...)] *)
Definition find_chart_histogram (yf : Backend) (args : history_args) (self : loc) : py unit :=
  b ← builder self; call_method b "get_chart_history" (get_chart_history yf args).

(** [self.builder.get_X()] *)
Definition find_isin_code (yf : Backend) (self : loc) : py unit :=
  b ← builder self; call_method b "get_isin_code" (get_isin_code yf).
Definition find_major_holders (yf : Backend) (self : loc) : py unit :=
  b ← builder self; call_method b "get_major_holders" (get_major_holders yf).
Definition find_institutional_holders (yf : Backend) (self : loc) : py unit :=
  b ← builder self; call_method b "get_institutional_holders" (get_institutional_holders yf).
Definition find_mutualfund_holders (yf : Backend) (self : loc) : py unit :=
  b ← builder self; call_method b "get_mutualfund_holders" (get_mutualfund_holders yf).
Definition find_dividends (yf : Backend) (self : loc) : py unit :=
  b ← builder self; call_method b "get_dividends" (get_dividends yf).
Definition find_splits (yf : Backend) (self : loc) : py unit :=
  b ← builder self; call_method b "get_splits" (get_splits yf).
Definition find_actions (yf : Backend) (self : loc) : py unit :=
  b ← builder self; call_method b "get_actions" (get_actions yf).
Definition find_info (yf : Backend) (self : loc) : py unit :=
  b ← builder self; call_method b "get_info" (get_info yf).
Definition find_calendar (yf : Backend) (self : loc) : py unit :=
  b ← builder self; call_method b "get_calendar" (get_calendar yf).
Definition find_recommendations (yf : Backend) (self : loc) : py unit :=
  b ← builder self; call_method b "get_recommendations" (get_recommendations yf).
Definition find_earnings (yf : Backend) (self : loc) : py unit :=
  b ← builder self; call_method b "get_earnings" (get_earnings yf).
Definition find_quarterly_earnings (yf : Backend) (self : loc) : py unit :=
  b ← builder self; call_method b "get_quarterly_earnings" (get_quarterly_earnings yf).
Definition find_financials (yf : Backend) (self : loc) : py unit :=
  b ← builder self; call_method b "get_financials" (get_financials yf).
Definition find_quarterly_financials (yf : Backend) (self : loc) : py unit :=
  b ← builder self; call_method b "get_quarterly_financials" (get_quarterly_financials yf).
Definition find_balancesheet (yf : Backend) (self : loc) : py unit :=
  b ← builder self; call_method b "get_balancesheet" (get_balancesheet yf).
Definition find_quarterly_balancesheet (yf : Backend) (self : loc) : py unit :=
  b ← builder self; call_method b "get_quarterly_balancesheet" (get_quarterly_balancesheet yf).
Definition find_cashflow (yf : Backend) (self : loc) : py unit :=
  b ← builder self; call_method b "get_cashflow" (get_cashflow yf).
Definition find_quarterly_cashflow (yf : Backend) (self : loc) : py unit :=
  b ← builder self; call_method b "get_quarterly_cashflow" (get_quarterly_cashflow yf).
Definition find_sustainability (yf : Backend) (self : loc) : py unit :=
  b ← builder self; call_method b "get_sustainability" (get_sustainability yf).
Definition find_options (yf : Backend) (self : loc) : py unit :=
  b ← builder self; call_method b "get_options" (get_options yf).

(** The forwarding method of the Director for each builder method. *)
Definition find (yf : Backend) (m : method) : loc → py unit :=
  match m with
  | chart_history args => find_chart_histogram yf args
  | isin_code => find_isin_code yf
  | major_holders => find_major_holders yf
  | institutional_holders => find_institutional_holders yf
  | mutualfund_holders => find_mutualfund_holders yf
  | dividends => find_dividends yf
  | splits => find_splits yf
  | actions_ => find_actions yf
  | info => find_info yf
  | calendar => find_calendar yf
  | recommendations => find_recommendations yf
  | earnings => find_earnings yf
  | quarterly_earnings => find_quarterly_earnings yf
  | financials => find_financials yf
  | quarterly_financials => find_quarterly_financials yf
  | balancesheet => find_balancesheet yf
  | quarterly_balancesheet => find_quarterly_balancesheet yf
  | cashflow => find_cashflow yf
  | quarterly_cashflow => find_quarterly_cashflow yf
  | sustainability => find_sustainability yf
  | options => find_options yf
  end.

(** ** Client code: what a caller does with a builder *)

(** [for key, value in adds: product.add_product(key, value)] *)
Fixpoint add_all (product : loc) (adds : list (callable * pyvalue)) : py unit :=
  match adds with
  | [] => mret tt
  | (key, value) :: rest => add_product product key value;; add_all product rest
  end.

(** [builder._product.add_product(key, value)] *)
Definition add_to_current (self : loc) (key : callable) (value : pyvalue) : py unit :=
  b ← load_builder self "_product";
  match _product b with
  | None => raise (AttributeError "DesignerFinanceCollector" "_product")
  | Some p => add_product p key value
  end.

(** One use of a builder: a capability method, the [stock] property, [reset],
    or an [add_product] on the product it currently holds. *)
Inductive builder_call : Type :=
| CallGet (m : method)
| CallStock
| CallReset
| CallAdd (key : callable) (value : pyvalue).

Definition do_call (yf : Backend) (self : loc) (c : builder_call) : py unit :=
  match c with
  | CallGet m => get yf m self
  | CallStock => _ ← stock self; mret tt
  | CallReset => reset self
  | CallAdd key value => add_to_current self key value
  end.

(** The heap after a series of calls, each one attempted whether or not the
    one before it raised. *)
Definition after_calls (yf : Backend) (self : loc) (cs : list builder_call) (h : heap) : heap :=
  foldl (λ h c, (do_call yf self c h).2) h cs.

(** ** Sample data *)

(** The two public methods every tuple has, as a namedtuple passes them on:
    builtin methods, which have a [__name__] and little else. *)
Definition tuple_methods (name : string) : option (string → outcome pyvalue) :=
  if decide (name ∈ ["count"; "index"]) then
    Some (λ func, if String.eqb func "__name__" then Return (PyStr name)
                  else Raise (AttributeError "builtin_function_or_method" func))
  else None.

(** A backend that answers every request with the symbol and attribute asked for. *)
Definition echo_backend : Backend :=
  MkBackend (λ symbol func, Return (PyStr (symbol +:+ "." +:+ func)))
            (λ symbols _, Return (PyDataFrame symbols []))
            tuple_methods.

Definition fn (name : string) (id : nat) : callable := MkCallable name id.

(** A heap with one builder over AAPL and MSFT and one director. *)
Definition sample_heap : heap :=
  ((new_DesignerFinanceCollector ["AAPL"; "MSFT"];; new_FinanceCollector) ∅).2.

(** The same heap once the builder's product holds two results. *)
Definition loaded_heap : heap :=
  (add_all 2%positive
     [(fn "get_splits" 1, PyStr "2:1"); (fn "get_actions" 2, PyStr "none")]
     sample_heap).2.

(** And once the Director has that builder installed. *)
Definition configured_heap : heap :=
  (builder_setter 3%positive (Some 1%positive) loaded_heap).2.

(** A builder over AAPL and MSFT whose [tickers] attribute was assigned a
    [yf.Tickers] session, the type [all_trickers] is annotated with. *)
Definition session_heap : heap :=
  <[1%positive := ObjBuilder
      (MkDesigner ["AAPL"; "MSFT"] (YfTickers ["AAPL"; "MSFT"])
         (PyDataFrame [] []) [] (Some 2%positive))]> sample_heap.

(** ** Notions used in the statements *)

(** The dict a series of [add_product] calls makes of [d]. *)
Definition dict_after_adds (adds : list (callable * pyvalue)) (d : pydict pyvalue) : pydict pyvalue :=
  foldl (λ d kv, setitem (__name__ kv.1) kv.2 d) d adds.

(** The set of (identifier, value) pairs added, a later pair replacing an
    earlier one under the same identifier: the finite map built by inserting
    the pairs in order. *)
Definition pairs_added (adds : list (callable * pyvalue)) : gmap string pyvalue :=
  foldl (λ m kv, <[__name__ kv.1 := kv.2]> m) ∅ adds.

(** What one more insertion does to the key order of a dict. *)
Definition add_key (ks : list string) (n : string) : list string :=
  if decide (n ∈ ks) then ks else ks ++ [n].

(** The order in which identifiers were first inserted. *)
Definition insertion_order (names : list string) : list string :=
  reverse (remove_dups (reverse names)).

(** The condition the specification names NoBuilderInstalled.  The source has
    no exception class for it: it is the [AttributeError] that looking up a
    method on [None] raises. *)
Definition NoBuilderInstalled (e : exn) : Prop :=
  ∃ name, e = AttributeError "NoneType" name.

(** The product at [p], with contents [P], is no longer the one builder [b]
    accumulates into. *)
Definition detached (p : loc) (P : FinanceProduct) (b : loc) (h : heap) : Prop :=
  h !! p = Some (ObjProduct P) ∧
  ∀ B, h !! b = Some (ObjBuilder B) → _product B ≠ Some p.

(** ** Further notions and sample data *)

(** The [func] argument each fan-out method passes to [all_trickers];
    [get_chart_history] is the one method that does not go through it. *)
Definition fan_out_attr (m : method) : option string :=
  match m with
  | chart_history _ => None
  | isin_code => Some "isin"
  | major_holders => Some "major_holders"
  | institutional_holders => Some "institutional_holders"
  | mutualfund_holders => Some "mutualfund_holders"
  | dividends => Some "dividends"
  | splits => Some "splits"
  | actions_ => Some "actions"
  | info => Some "info"
  | calendar => Some "calendar"
  | recommendations => Some "recommendations"
  | earnings => Some "earnings"
  | quarterly_earnings => Some "quarterly_earnings"
  | financials => Some "financials"
  | quarterly_financials => Some "quarterly_financials"
  | balancesheet => Some "balancesheet"
  | quarterly_balancesheet => Some "quarterly_balancesheet"
  | cashflow => Some "cashflow"
  | quarterly_cashflow => Some "quarterly_cashflow"
  | sustainability => Some "sustainability"
  | options => Some "options"
  end.

(** The attribute whose lookup on a builtin dict fails first in a method. *)
Definition dict_missing_attr (m : method) : string :=
  match m with
  | chart_history _ => "history"
  | _ => "tickers"
  end.

(** Object [o] at [l] is neither builder [b] nor the product [b] currently
    accumulates into. *)
Definition apart (l : loc) (o : object) (b : loc) (h : heap) : Prop :=
  h !! l = Some o ∧ l ≠ b ∧
  ∀ B, h !! b = Some (ObjBuilder B) → _product B ≠ Some l.

(** A Director whose [builder] was assigned a [FinanceProduct]. *)
Definition misconfigured_heap : heap :=
  (builder_setter 3%positive (Some 2%positive) loaded_heap).2.

(** A Director whose installed builder holds a [yf.Tickers] session. *)
Definition session_director_heap : heap :=
  (builder_setter 3%positive (Some 1%positive) session_heap).2.

(** Two builders side by side, the first with a loaded product. *)
Definition two_builders_heap : heap :=
  (new_DesignerFinanceCollector ["GOOG"] loaded_heap).2.

(** A backend that knows no attribute of the symbol MSFT. *)
Definition partial_backend : Backend :=
  MkBackend (λ symbol func,
               if String.eqb symbol "MSFT" then Raise (BackendError "no data")
               else Return (PyStr (symbol +:+ "." +:+ func)))
            (λ symbols _, Return (PyDataFrame symbols []))
            tuple_methods.

(** * Properties *)

(** ** Dicts *)

Section dict_facts.
Context {V : Type}.
Implicit Types (d : pydict V) (k : string) (v : V).

Lemma to_gmap_setitem k v d : to_gmap (setitem k v d) = <[k:=v]> (to_gmap d).
Proof.
  unfold to_gmap. induction d as [|[k' v'] d IH]; simpl; [done|].
  case_decide as Hk; simpl.
  - subst k'. by rewrite insert_insert_eq.
  - rewrite IH. by apply insert_insert_ne.
Qed.

Lemma getitem_to_gmap k d : getitem k d = to_gmap d !! k.
Proof.
  unfold to_gmap. induction d as [|[k' v'] d IH]; simpl; [done|].
  case_decide as Hk.
  - subst k'. by rewrite lookup_insert_eq.
  - by rewrite lookup_insert_ne.
Qed.

Lemma getitem_setitem k k' v d :
  getitem k' (setitem k v d) = if decide (k = k') then Some v else getitem k' d.
Proof. by rewrite !getitem_to_gmap, to_gmap_setitem, lookup_insert. Qed.

Lemma keys_setitem_old k v d : k ∈ keys d → keys (setitem k v d) = keys d.
Proof.
  unfold keys. induction d as [|[k' v'] d IH]; csimpl; intros Hin.
  - by apply elem_of_nil in Hin.
  - case_decide as Hk; csimpl; [done|].
    apply elem_of_cons in Hin as [->|Hin]; [done|]. by rewrite IH.
Qed.

Lemma keys_setitem_new k v d : k ∉ keys d → keys (setitem k v d) = keys d ++ [k].
Proof.
  unfold keys. induction d as [|[k' v'] d IH]; csimpl; intros Hin; [done|].
  apply not_elem_of_cons in Hin as [Hne Hin].
  case_decide as Hk; csimpl; [by subst|]. by rewrite IH.
Qed.

Lemma elem_of_keys_setitem k k' v d : k' ∈ keys (setitem k v d) ↔ k' = k ∨ k' ∈ keys d.
Proof.
  destruct (decide (k ∈ keys d)) as [Hin|Hin].
  - rewrite keys_setitem_old by done. split; [by right|]. by intros [->|?].
  - rewrite keys_setitem_new by done. rewrite elem_of_app, list_elem_of_singleton.
    split; (intros [?|?]; [by right|by left]).
Qed.

Lemma NoDup_keys_setitem k v d : NoDup (keys d) → NoDup (keys (setitem k v d)).
Proof.
  intros Hd. destruct (decide (k ∈ keys d)) as [Hin|Hin].
  - by rewrite keys_setitem_old.
  - rewrite keys_setitem_new by done. apply NoDup_app. split_and!; [done| |apply NoDup_singleton].
    intros x Hx Hx'. apply list_elem_of_singleton in Hx'. by subst.
Qed.

(** Overwriting twice is overwriting once with the later value. *)
Lemma setitem_setitem k v w d : setitem k w (setitem k v d) = setitem k w d.
Proof.
  induction d as [|[k' v'] d IH]; simpl.
  - by rewrite decide_True.
  - case_decide as Hk; simpl.
    + by rewrite decide_True.
    + rewrite decide_False by done. by rewrite IH.
Qed.

Lemma filter_key_absent k d : k ∉ keys d → filter (λ kv, kv.1 = k) d = [].
Proof.
  unfold keys. induction d as [|[k' v'] d IH]; csimpl; intros Hk; [done|].
  apply not_elem_of_cons in Hk as [Hne Hk].
  rewrite filter_cons_False by (simpl; congruence). by apply IH.
Qed.

(** In a dict without repeated keys the entry of a key just set is the only
    one under that key. *)
Lemma filter_key_setitem k v d :
  NoDup (keys d) → filter (λ kv, kv.1 = k) (setitem k v d) = [(k, v)].
Proof.
  unfold keys. induction d as [|[k' v'] d IH]; csimpl; intros Hd.
  - by rewrite filter_cons_True.
  - apply NoDup_cons in Hd as [Hk' Hd]. case_decide as Hk.
    + subst k'. rewrite filter_cons_True by done. f_equal.
      by apply filter_key_absent.
    + rewrite filter_cons_False by done. by apply IH.
Qed.

End dict_facts.

(** ** Running methods on a heap *)

Ltac py_unfold :=
  unfold mbind, mret, py_bind, py_ret, raise, lift, store,
    load_builder, load_product, load_director.

Lemma fresh_unused (h : heap) : h !! fresh (dom h) = None.
Proof. apply not_elem_of_dom, is_fresh. Qed.

Lemma fresh_ne (h : heap) (l : loc) (o : object) : h !! l = Some o → fresh (dom h) ≠ l.
Proof. intros Hl Heq. rewrite <- Heq, fresh_unused in Hl. done. Qed.

Lemma return_product_spec (h : heap) (p : loc) (P : FinanceProduct) :
  h !! p = Some (ObjProduct P) →
  return_product p h = (Return (product_parts P), h).
Proof. intros Hp. unfold return_product. py_unfold. by rewrite Hp. Qed.

Lemma add_product_spec (h : heap) (p : loc) (P : FinanceProduct) key value :
  h !! p = Some (ObjProduct P) →
  add_product p key value h =
    (Return tt, <[p := ObjProduct (MkFinanceProduct (setitem (__name__ key) value (product_parts P)))]> h).
Proof. intros Hp. unfold add_product. py_unfold. by rewrite Hp. Qed.

Lemma reset_spec (h : heap) (b : loc) (B : DesignerFinanceCollector) :
  h !! b = Some (ObjBuilder B) →
  reset b h =
    (Return tt,
     <[b := ObjBuilder (set_product (Some (fresh (dom h))) B)]>
       (<[fresh (dom h) := ObjProduct (MkFinanceProduct [])]> h)).
Proof.
  intros Hb. unfold reset, new_FinanceProduct, alloc. py_unfold.
  rewrite lookup_insert_ne by (by eapply fresh_ne). by rewrite Hb.
Qed.

Lemma stock_spec (h : heap) (b p : loc) (B : DesignerFinanceCollector) :
  h !! b = Some (ObjBuilder B) → _product B = Some p →
  stock b h =
    (Return p,
     <[b := ObjBuilder (set_product (Some (fresh (dom h))) B)]>
       (<[fresh (dom h) := ObjProduct (MkFinanceProduct [])]> h)).
Proof.
  intros Hb Hp. unfold stock. unfold mbind at 1. unfold py_bind, load_builder.
  rewrite Hb, Hp. unfold mbind, py_bind. rewrite (reset_spec _ _ _ Hb). done.
Qed.

(** C2.  The [stock] property is read-then-clear: it hands out the product
    the builder has accumulated, untouched, and leaves the builder with a new
    empty product; read again at once, it hands out that empty product. *)
Theorem stock_read_then_clear (h : heap) (b p : loc)
    (B : DesignerFinanceCollector) (P : FinanceProduct) :
  h !! b = Some (ObjBuilder B) →
  _product B = Some p →
  h !! p = Some (ObjProduct P) →
  ∃ (h1 h2 : heap) (p' : loc),
    stock b h = (Return p, h1) ∧
    return_product p h1 = (Return (product_parts P), h1) ∧
    h1 !! b = Some (ObjBuilder (set_product (Some p') B)) ∧
    p' ≠ p ∧
    return_product p' h1 = (Return [], h1) ∧
    stock b h1 = (Return p', h2) ∧
    return_product p' h2 = (Return [], h2).
Proof.
  intros Hb HB Hp.
  set (p' := fresh (dom h)).
  set (h1 := <[b := ObjBuilder (set_product (Some p') B)]>
               (<[p' := ObjProduct (MkFinanceProduct [])]> h)).
  assert (Hpb : p ≠ b) by (intros ->; congruence).
  assert (Hp'p : p' ≠ p) by (by eapply fresh_ne).
  assert (Hp'b : p' ≠ b) by (by eapply fresh_ne).
  assert (Hb1 : h1 !! b = Some (ObjBuilder (set_product (Some p') B)))
    by apply lookup_insert_eq.
  assert (Hp1 : h1 !! p = Some (ObjProduct P)).
  { unfold h1. by rewrite !lookup_insert_ne. }
  assert (Hp'1 : h1 !! p' = Some (ObjProduct (MkFinanceProduct []))).
  { unfold h1. rewrite lookup_insert_ne by done. apply lookup_insert_eq. }
  eexists h1, _, p'. split_and!.
  - by apply stock_spec.
  - by apply return_product_spec.
  - done.
  - done.
  - by apply (return_product_spec h1 p' (MkFinanceProduct [])).
  - by apply (stock_spec h1 b p' _ Hb1).
  - apply (return_product_spec _ p' (MkFinanceProduct [])).
    rewrite lookup_insert_ne by done.
    rewrite lookup_insert_ne by (by eapply fresh_ne). done.
Qed.

Lemma stock_read_then_clear_witness :
  ∃ (h1 h2 : heap) (p' : loc),
    stock 1%positive loaded_heap = (Return 2%positive, h1) ∧
    return_product 2%positive h1 =
      (Return [("get_splits", PyStr "2:1"); ("get_actions", PyStr "none")], h1) ∧
    h1 !! 1%positive =
      Some (ObjBuilder (set_product (Some p')
        (MkDesigner ["AAPL"; "MSFT"]
           (DictOfTicker [("AAPL", "AAPL"); ("MSFT", "MSFT")])
           (PyDataFrame [] []) [] (Some 2%positive)))) ∧
    p' ≠ 2%positive ∧
    return_product p' h1 = (Return [], h1) ∧
    stock 1%positive h1 = (Return p', h2) ∧
    return_product p' h2 = (Return [], h2).
Proof.
  apply (stock_read_then_clear loaded_heap 1%positive 2%positive
           (MkDesigner ["AAPL"; "MSFT"]
              (DictOfTicker [("AAPL", "AAPL"); ("MSFT", "MSFT")])
              (PyDataFrame [] []) [] (Some 2%positive))
           (MkFinanceProduct
              [("get_splits", PyStr "2:1"); ("get_actions", PyStr "none")]));
    reflexivity.
Defined.

(** ** Accumulating and collecting *)

Lemma add_all_spec (adds : list (callable * pyvalue)) (h : heap) (p : loc) (P : FinanceProduct) :
  h !! p = Some (ObjProduct P) →
  add_all p adds h =
    (Return tt, <[p := ObjProduct (MkFinanceProduct (dict_after_adds adds (product_parts P)))]> h).
Proof.
  revert h P. induction adds as [|[key value] adds IH]; intros h P Hp; simpl.
  - unfold mret, py_ret. f_equal. symmetry. apply insert_id. by destruct P.
  - unfold mbind, py_bind. rewrite (add_product_spec _ _ _ _ _ Hp).
    erewrite IH by apply lookup_insert_eq. simpl. by rewrite insert_insert_eq.
Qed.

Lemma to_gmap_dict_after_adds (adds : list (callable * pyvalue)) (d : pydict pyvalue) :
  to_gmap (dict_after_adds adds d) =
    foldl (λ m kv, <[__name__ kv.1 := kv.2]> m) (to_gmap d) adds.
Proof.
  revert d. induction adds as [|[key value] adds IH]; intros d; simpl; [done|].
  unfold dict_after_adds in *. simpl. by rewrite IH, to_gmap_setitem.
Qed.

Lemma NoDup_dict_after_adds (adds : list (callable * pyvalue)) (d : pydict pyvalue) :
  NoDup (keys d) → NoDup (keys (dict_after_adds adds d)).
Proof.
  revert d. induction adds as [|[key value] adds IH]; intros d Hd; simpl; [done|].
  apply IH. by apply NoDup_keys_setitem.
Qed.

(** C4.  A series of [add_product] calls on the empty product of a builder,
    followed by one read of [stock], yields exactly the pairs added, a later
    value replacing an earlier one under the same name; a second read of
    [stock] right after yields an empty product. *)
Theorem adds_then_collect (adds : list (callable * pyvalue)) (h : heap) (b p : loc)
    (B : DesignerFinanceCollector) :
  h !! b = Some (ObjBuilder B) →
  _product B = Some p →
  h !! p = Some (ObjProduct (MkFinanceProduct [])) →
  ∃ (h1 h2 h3 : heap) (p' : loc) (d : pydict pyvalue),
    add_all p adds h = (Return tt, h1) ∧
    stock b h1 = (Return p, h2) ∧
    return_product p h2 = (Return d, h2) ∧
    to_gmap d = pairs_added adds ∧
    d ≡ₚ map_to_list (pairs_added adds) ∧
    (∀ name, getitem name d = pairs_added adds !! name) ∧
    stock b h2 = (Return p', h3) ∧
    return_product p' h3 = (Return [], h3).
Proof.
  intros Hb HB Hp.
  assert (Hpb : p ≠ b) by (intros ->; congruence).
  set (d := dict_after_adds adds []).
  set (h1 := <[p := ObjProduct (MkFinanceProduct d)]> h).
  assert (Hb1 : h1 !! b = Some (ObjBuilder B)).
  { unfold h1. by rewrite lookup_insert_ne. }
  assert (Hp1 : h1 !! p = Some (ObjProduct (MkFinanceProduct d))) by apply lookup_insert_eq.
  set (p' := fresh (dom h1)).
  set (h2 := <[b := ObjBuilder (set_product (Some p') B)]>
               (<[p' := ObjProduct (MkFinanceProduct [])]> h1)).
  assert (Hp'p : p' ≠ p) by (by eapply fresh_ne).
  assert (Hp'b : p' ≠ b) by (by eapply fresh_ne).
  assert (Hb2 : h2 !! b = Some (ObjBuilder (set_product (Some p') B))) by apply lookup_insert_eq.
  assert (Hgm : to_gmap d = pairs_added adds).
  { unfold d. by rewrite to_gmap_dict_after_adds. }
  assert (Hp'2 : h2 !! p' = Some (ObjProduct (MkFinanceProduct []))).
  { unfold h2. rewrite lookup_insert_ne by done. apply lookup_insert_eq. }
  exists h1, h2. eexists. exists p', d. split_and!.
  - by apply (add_all_spec adds h p (MkFinanceProduct [])).
  - by apply stock_spec.
  - apply (return_product_spec h2 p (MkFinanceProduct d)).
    unfold h2. by rewrite !lookup_insert_ne.
  - done.
  - rewrite <- Hgm. unfold to_gmap. symmetry. apply map_to_list_to_map.
    apply (NoDup_dict_after_adds adds []), NoDup_nil_2.
  - intros name. by rewrite getitem_to_gmap, Hgm.
  - by apply (stock_spec h2 b p' _ Hb2).
  - apply (return_product_spec _ p' (MkFinanceProduct [])).
    rewrite lookup_insert_ne by done.
    by rewrite lookup_insert_ne by (by eapply fresh_ne).
Qed.

Lemma adds_then_collect_witness :
  ∃ (h1 h2 h3 : heap) (p' : loc) (d : pydict pyvalue),
    add_all 2%positive
      [(fn "get_dividends" 1, PyStr "first"); (fn "get_splits" 2, PyStr "2:1");
       (fn "get_dividends" 3, PyStr "second")] sample_heap = (Return tt, h1) ∧
    stock 1%positive h1 = (Return 2%positive, h2) ∧
    return_product 2%positive h2 = (Return d, h2) ∧
    to_gmap d =
      pairs_added
        [(fn "get_dividends" 1, PyStr "first"); (fn "get_splits" 2, PyStr "2:1");
         (fn "get_dividends" 3, PyStr "second")] ∧
    d ≡ₚ map_to_list (pairs_added
        [(fn "get_dividends" 1, PyStr "first"); (fn "get_splits" 2, PyStr "2:1");
         (fn "get_dividends" 3, PyStr "second")]) ∧
    (∀ name, getitem name d =
       pairs_added
         [(fn "get_dividends" 1, PyStr "first"); (fn "get_splits" 2, PyStr "2:1");
          (fn "get_dividends" 3, PyStr "second")] !! name) ∧
    stock 1%positive h2 = (Return p', h3) ∧
    return_product p' h3 = (Return [], h3).
Proof.
  apply (adds_then_collect
           [(fn "get_dividends" 1, PyStr "first"); (fn "get_splits" 2, PyStr "2:1");
            (fn "get_dividends" 3, PyStr "second")]
           sample_heap 1%positive 2%positive
           (MkDesigner ["AAPL"; "MSFT"]
              (DictOfTicker [("AAPL", "AAPL"); ("MSFT", "MSFT")])
              (PyDataFrame [] []) [] (Some 2%positive)));
    reflexivity.
Defined.

Example adds_overwrite_in_place :
  dict_after_adds
    [(fn "get_dividends" 1, PyStr "first"); (fn "get_splits" 2, PyStr "2:1");
     (fn "get_dividends" 3, PyStr "second")] [] =
  [("get_dividends", PyStr "second"); ("get_splits", PyStr "2:1")].
Proof. reflexivity. Qed.

(** C10.  [add_product] takes a function object and files the value under the
    function's [__name__]: two functions of the same name, even distinct
    ones, share one entry, which holds the value added last. *)
Theorem add_product_keyed_by_name (h : heap) (p : loc) (P : FinanceProduct)
    (f g : callable) (v w : pyvalue) :
  h !! p = Some (ObjProduct P) →
  __name__ f = __name__ g →
  ∃ (h' : heap) (d : pydict pyvalue),
    (add_product p f v;; add_product p g w) h = (Return tt, h') ∧
    return_product p h' = (Return d, h') ∧
    d = setitem (__name__ f) w (product_parts P) ∧
    getitem (__name__ f) d = Some w ∧
    (NoDup (keys (product_parts P)) →
       filter (λ kv, kv.1 = __name__ f) d = [(__name__ f, w)]) ∧
    (product_parts P = [] → d = [(__name__ f, w)]).
Proof.
  intros Hp Hfg.
  set (d := setitem (__name__ f) w (product_parts P)).
  exists (<[p := ObjProduct (MkFinanceProduct d)]> h), d. split_and!.
  - unfold mbind, py_bind. rewrite (add_product_spec _ _ _ _ _ Hp).
    erewrite add_product_spec by apply lookup_insert_eq.
    simpl. rewrite <- Hfg, setitem_setitem. by rewrite insert_insert_eq.
  - apply (return_product_spec _ p (MkFinanceProduct d)), lookup_insert_eq.
  - done.
  - unfold d. rewrite getitem_setitem. by rewrite decide_True.
  - intros Hnd. by apply filter_key_setitem.
  - intros HP. unfold d. by rewrite HP.
Qed.

Lemma add_product_keyed_by_name_witness :
  ∃ (h' : heap) (d : pydict pyvalue),
    (add_product 2%positive (fn "get_info" 7) (PyStr "old");;
     add_product 2%positive (fn "get_info" 8) (PyStr "new")) loaded_heap = (Return tt, h') ∧
    return_product 2%positive h' = (Return d, h') ∧
    d = setitem "get_info" (PyStr "new")
          [("get_splits", PyStr "2:1"); ("get_actions", PyStr "none")] ∧
    getitem "get_info" d = Some (PyStr "new") ∧
    (NoDup (keys [("get_splits", PyStr "2:1"); ("get_actions", PyStr "none")]) →
       filter (λ kv, kv.1 = "get_info") d = [("get_info", PyStr "new")]) ∧
    ([("get_splits", PyStr "2:1"); ("get_actions", PyStr "none")] = [] →
       d = [("get_info", PyStr "new")]).
Proof.
  apply (add_product_keyed_by_name loaded_heap 2%positive
           (MkFinanceProduct [("get_splits", PyStr "2:1"); ("get_actions", PyStr "none")])
           (fn "get_info" 7) (fn "get_info" 8) (PyStr "old") (PyStr "new"));
    reflexivity.
Defined.

(** ** The summary *)

Lemma keys_dict_after_adds (adds : list (callable * pyvalue)) (d : pydict pyvalue) :
  keys (dict_after_adds adds d) = foldl add_key (keys d) ((λ kv, __name__ kv.1) <$> adds).
Proof.
  revert d. induction adds as [|[key value] adds IH]; intros d; csimpl; [done|].
  unfold dict_after_adds in *. simpl. rewrite IH. f_equal. unfold add_key.
  case_decide as Hin.
  - by apply keys_setitem_old.
  - by apply keys_setitem_new.
Qed.

Lemma elem_of_insertion_order (x : string) (names : list string) :
  x ∈ insertion_order names ↔ x ∈ names.
Proof.
  unfold insertion_order. by rewrite elem_of_reverse, elem_of_remove_dups, elem_of_reverse.
Qed.

Lemma insertion_order_snoc (names : list string) (x : string) :
  insertion_order (names ++ [x]) = add_key (insertion_order names) x.
Proof.
  unfold add_key. pose proof (elem_of_insertion_order x names) as Hx.
  unfold insertion_order in *. rewrite reverse_snoc. simpl.
  destruct (decide_rel elem_of x (reverse names)) as [Hin|Hin].
  - rewrite decide_True; [done|]. apply Hx. by apply elem_of_reverse.
  - rewrite decide_False.
    + by rewrite reverse_cons.
    + intros Hin'. apply Hin, elem_of_reverse. by apply Hx.
Qed.

Lemma foldl_add_key (names : list string) : foldl add_key [] names = insertion_order names.
Proof.
  induction names as [|x names IH] using rev_ind; [done|].
  by rewrite foldl_snoc, IH, insertion_order_snoc.
Qed.

Lemma list_product_parts_spec (h : heap) (p : loc) (P : FinanceProduct) :
  h !! p = Some (ObjProduct P) →
  list_product_parts p h =
    (Return ("Product parts: " +:+ String.concat ", " (keys (product_parts P))), h).
Proof. intros Hp. unfold list_product_parts. py_unfold. by rewrite Hp. Qed.

(** C6.  [list_product_parts] changes nothing and returns "Product parts: "
    followed by the stored names, joined by ", ", in the order of their first
    insertion; after [get_splits] then [get_actions] were stored it returns
    "Product parts: get_splits, get_actions". *)
Theorem list_product_parts_summary (h : heap) (p : loc) (P : FinanceProduct)
    (adds : list (callable * pyvalue)) :
  h !! p = Some (ObjProduct P) →
  list_product_parts p h =
    (Return ("Product parts: " +:+ String.concat ", " (keys (product_parts P))), h) ∧
  (product_parts P = [] →
   ∃ h1 : heap,
     add_all p adds h = (Return tt, h1) ∧
     list_product_parts p h1 =
       (Return ("Product parts: " +:+
                String.concat ", " (insertion_order ((λ kv, __name__ kv.1) <$> adds))), h1)) ∧
  (product_parts P = [] →
   ∀ (f g : callable) (v w : pyvalue),
     __name__ f = "get_splits" → __name__ g = "get_actions" →
     ∃ h1 : heap,
       add_all p [(f, v); (g, w)] h = (Return tt, h1) ∧
       list_product_parts p h1 = (Return "Product parts: get_splits, get_actions", h1)).
Proof.
  intros Hp. split_and!.
  - by apply list_product_parts_spec.
  - intros HP. eexists. split; [by apply add_all_spec|].
    erewrite list_product_parts_spec by apply lookup_insert_eq. simpl.
    by rewrite HP, keys_dict_after_adds, foldl_add_key.
  - intros HP f g v w Hf Hg. eexists. split; [by apply add_all_spec|].
    erewrite list_product_parts_spec by apply lookup_insert_eq.
    rewrite HP. unfold dict_after_adds. simpl. rewrite Hf, Hg. reflexivity.
Qed.

Lemma list_product_parts_summary_witness :
  list_product_parts 2%positive sample_heap = (Return "Product parts: ", sample_heap) ∧
  ∃ h1 : heap,
    add_all 2%positive
      [(fn "get_splits" 1, PyStr "2:1"); (fn "get_actions" 2, PyStr "none")] sample_heap
      = (Return tt, h1) ∧
    list_product_parts 2%positive h1 =
      (Return "Product parts: get_splits, get_actions", h1).
Proof.
  destruct (list_product_parts_summary sample_heap 2%positive (MkFinanceProduct [])
              [(fn "get_splits" 1, PyStr "2:1"); (fn "get_actions" 2, PyStr "none")]
              eq_refl) as (Hpure & Hadds & _).
  split; [exact Hpure|]. exact (Hadds eq_refl).
Defined.

(** ** The Director *)

Lemma builder_spec (h : heap) (d : loc) (D : FinanceCollector) :
  h !! d = Some (ObjDirector D) → builder d h = (Return (_builder D), h).
Proof. intros Hd. unfold builder. py_unfold. by rewrite Hd. Qed.

Lemma builder_setter_spec (h : heap) (d : loc) (D : FinanceCollector) (new : pyref) :
  h !! d = Some (ObjDirector D) →
  builder_setter d new h = (Return tt, <[d := ObjDirector (MkCollector new)]> h).
Proof. intros Hd. unfold builder_setter. py_unfold. by rewrite Hd. Qed.

Ltac unfold_find :=
  unfold find_chart_histogram, find_isin_code, find_major_holders,
    find_institutional_holders, find_mutualfund_holders, find_dividends,
    find_splits, find_actions, find_info, find_calendar, find_recommendations,
    find_earnings, find_quarterly_earnings, find_financials,
    find_quarterly_financials, find_balancesheet, find_quarterly_balancesheet,
    find_cashflow, find_quarterly_cashflow, find_sustainability, find_options.

Lemma find_unconfigured (yf : Backend) (m : method) (h : heap) (d : loc) :
  h !! d = Some (ObjDirector (MkCollector None)) →
  find yf m d h = (Raise (AttributeError "NoneType" (get_name m)), h).
Proof.
  intros Hd.
  destruct m; simpl; unfold_find;
    unfold mbind, py_bind; rewrite (builder_spec _ _ _ Hd); reflexivity.
Qed.

Lemma new_FinanceCollector_unconfigured (h : heap) :
  ∃ (d : loc) (h' : heap),
    new_FinanceCollector h = (Return d, h') ∧
    h' !! d = Some (ObjDirector (MkCollector None)).
Proof.
  eexists _, _. split; [reflexivity|]. apply lookup_insert_eq.
Qed.

(** C5.  On a Director with no builder installed, as a newly constructed one
    is, every [find_*] method fails, with the failure that stands for
    NoBuilderInstalled, and leaves the heap, the Director included, as it was. *)
Theorem find_without_builder (yf : Backend) (m : method) (h : heap) (d : loc) :
  h !! d = Some (ObjDirector (MkCollector None)) →
  ∃ e : exn,
    find yf m d h = (Raise e, h) ∧
    NoBuilderInstalled e ∧
    builder d h = (Return None, h).
Proof.
  intros Hd. exists (AttributeError "NoneType" (get_name m)). split_and!.
  - by apply find_unconfigured.
  - by eexists.
  - by rewrite (builder_spec _ _ _ Hd).
Qed.

Lemma find_without_builder_witness :
  ∃ e : exn,
    find echo_backend dividends 3%positive sample_heap = (Raise e, sample_heap) ∧
    NoBuilderInstalled e ∧
    builder 3%positive sample_heap = (Return None, sample_heap).
Proof.
  apply (find_without_builder echo_backend dividends sample_heap 3%positive).
  reflexivity.
Defined.

(** C7.  Assigning another builder to the Director changes the Director
    alone: every other object is as before, so the builder installed earlier
    still holds its product, with the same contents, and still hands it out. *)
Theorem builder_setter_frame (h : heap) (d : loc) (D : FinanceCollector) (new : pyref) :
  h !! d = Some (ObjDirector D) →
  ∃ h' : heap,
    builder_setter d new h = (Return tt, h') ∧
    builder d h' = (Return new, h') ∧
    (∀ l, l ≠ d → h' !! l = h !! l) ∧
    (∀ (b p : loc) (B : DesignerFinanceCollector) (P : FinanceProduct),
       _builder D = Some b →
       h !! b = Some (ObjBuilder B) →
       _product B = Some p →
       h !! p = Some (ObjProduct P) →
       h' !! b = Some (ObjBuilder B) ∧
       return_product p h' = (Return (product_parts P), h') ∧
       (stock b h').1 = Return p).
Proof.
  intros Hd. exists (<[d := ObjDirector (MkCollector new)]> h).
  assert (Hframe : ∀ l, l ≠ d → <[d := ObjDirector (MkCollector new)]> h !! l = h !! l).
  { intros l Hl. by rewrite lookup_insert_ne. }
  split_and!.
  - by apply (builder_setter_spec h d D).
  - apply (builder_spec _ d (MkCollector new)), lookup_insert_eq.
  - done.
  - intros b p B P _ Hb HB Hp.
    assert (Hbd : b ≠ d) by (intros ->; congruence).
    assert (Hpd : p ≠ d) by (intros ->; congruence).
    split_and!.
    + by rewrite Hframe.
    + apply return_product_spec. by rewrite Hframe.
    + erewrite stock_spec; [done| |done]. by rewrite Hframe.
Qed.

Lemma builder_setter_frame_witness :
  ∃ h' : heap,
    builder_setter 3%positive None configured_heap = (Return tt, h') ∧
    builder 3%positive h' = (Return None, h') ∧
    h' !! 1%positive = configured_heap !! 1%positive ∧
    return_product 2%positive h' =
      (Return [("get_splits", PyStr "2:1"); ("get_actions", PyStr "none")], h').
Proof.
  assert (Hd : configured_heap !! 3%positive =
               Some (ObjDirector (MkCollector (Some 1%positive))))
    by (vm_compute; reflexivity).
  assert (Hb : configured_heap !! 1%positive =
               Some (ObjBuilder
                 (MkDesigner ["AAPL"; "MSFT"]
                    (DictOfTicker [("AAPL", "AAPL"); ("MSFT", "MSFT")])
                    (PyDataFrame [] []) [] (Some 2%positive))))
    by (vm_compute; reflexivity).
  assert (Hp : configured_heap !! 2%positive =
               Some (ObjProduct (MkFinanceProduct
                 [("get_splits", PyStr "2:1"); ("get_actions", PyStr "none")])))
    by (vm_compute; reflexivity).
  destruct (builder_setter_frame configured_heap 3%positive _ None Hd)
    as (h' & Hset & Hget & _ & Hold).
  destruct (Hold 1%positive 2%positive _ _ eq_refl Hb eq_refl Hp) as (Hb' & Hp' & _).
  exists h'. split_and!; [exact Hset|exact Hget| |exact Hp'].
  exact (eq_trans Hb' (eq_sym Hb)).
Defined.

(** ** What the builder's methods touch *)

Ltac unfold_get :=
  unfold get_isin_code, get_major_holders, get_institutional_holders,
    get_mutualfund_holders, get_dividends, get_splits, get_actions, get_info,
    get_calendar, get_recommendations, get_earnings, get_quarterly_earnings,
    get_financials, get_quarterly_financials, get_balancesheet,
    get_quarterly_balancesheet, get_cashflow, get_quarterly_cashflow,
    get_sustainability, get_options.

Lemma assign_all_trickers_effect (yf : Backend) (func : string) (b : loc) (h : heap) :
  (assign_all_trickers yf func b h).2 = h ∨
  ∃ B d, h !! b = Some (ObjBuilder B) ∧
         all_trickers yf (tickers B) (keyword_list B) func = Return d ∧
         assign_all_trickers yf func b h = (Return tt, <[b := ObjBuilder (set_dict d B)]> h).
Proof.
  unfold assign_all_trickers. py_unfold.
  destruct (h !! b) as [[P|B|D]|] eqn:Hb; simpl; auto.
  destruct (all_trickers yf (tickers B) (keyword_list B) func) as [d|e] eqn:Hall; simpl; auto.
  right. by exists B, d.
Qed.

Lemma get_chart_history_effect (yf : Backend) (args : history_args) (b : loc) (h : heap) :
  (get_chart_history yf args b h).2 = h ∨
  ∃ B v, h !! b = Some (ObjBuilder B) ∧
         get_chart_history yf args b h = (Return tt, <[b := ObjBuilder (set_df v B)]> h).
Proof.
  unfold get_chart_history. py_unfold.
  destruct (h !! b) as [[P|B|D]|] eqn:Hb; simpl; auto.
  destruct (getattr_history yf (tickers B)) as [history|e]; simpl; auto.
  destruct (history args) as [v|e]; simpl; auto.
  right. by exists B, v.
Qed.

(** No method of the builder calls [add_product]: a method either leaves the
    heap alone or rewrites the builder object, keeping its [_product]. *)
Lemma get_effect (yf : Backend) (m : method) (b : loc) (h : heap) :
  (get yf m b h).2 = h ∨
  ∃ B B', h !! b = Some (ObjBuilder B) ∧
          _product B' = _product B ∧
          get yf m b h = (Return tt, <[b := ObjBuilder B']> h).
Proof.
  destruct m; simpl; unfold_get;
    try match goal with
        | |- context [assign_all_trickers yf ?func b h] =>
            destruct (assign_all_trickers_effect yf func b h) as [?|(B & d & ? & ? & ?)];
            [by left|right; by exists B, (set_dict d B)]
        end.
  destruct (get_chart_history_effect yf args b h) as [?|(B & v & ? & ?)];
    [by left|right; by exists B, (set_df v B)].
Qed.

Lemma detached_insert_builder (p b : loc) (P : FinanceProduct)
    (B B' : DesignerFinanceCollector) (h : heap) :
  detached p P b h → h !! b = Some (ObjBuilder B) → _product B' ≠ Some p →
  detached p P b (<[b := ObjBuilder B']> h).
Proof.
  intros [Hp Hb] HB HB'. split.
  - rewrite lookup_insert_ne; [done|]. intros ->. congruence.
  - intros B''. rewrite lookup_insert_eq. by intros [= <-].
Qed.

Lemma detached_alloc (p b : loc) (P : FinanceProduct) (P' : FinanceProduct) (h : heap) :
  detached p P b h → detached p P b (<[fresh (dom h) := ObjProduct P']> h).
Proof.
  intros [Hp Hb]. split.
  - rewrite lookup_insert_ne; [done|]. by eapply fresh_ne.
  - intros B. destruct (decide (fresh (dom h) = b)) as [<-|Hne].
    + by rewrite lookup_insert_eq.
    + rewrite lookup_insert_ne by done. apply Hb.
Qed.

Lemma reset_detached (p b : loc) (P : FinanceProduct) (h : heap) :
  detached p P b h → detached p P b (reset b h).2.
Proof.
  intros Hdet. destruct (h !! b) as [[P'|B|D]|] eqn:Hb.
  2: { rewrite (reset_spec _ _ _ Hb). simpl.
       assert (Hfp : fresh (dom h) ≠ p) by (destruct Hdet; by eapply fresh_ne).
       apply (detached_insert_builder _ _ _ B).
       - by apply detached_alloc.
       - rewrite lookup_insert_ne; [done|]. by eapply fresh_ne.
       - simpl. congruence. }
  all: unfold reset, new_FinanceProduct, alloc; py_unfold.
  1,2: rewrite lookup_insert_ne by (by eapply fresh_ne); rewrite Hb; simpl;
    by apply detached_alloc.
  destruct (decide (fresh (dom h) = b)) as [<-|Hne].
  - rewrite lookup_insert_eq. simpl. by apply detached_alloc.
  - rewrite lookup_insert_ne by done. rewrite Hb. simpl. by apply detached_alloc.
Qed.

Lemma stock_detached (p b : loc) (P : FinanceProduct) (h : heap) :
  detached p P b h → detached p P b (stock b h).2.
Proof.
  intros Hdet. unfold stock. unfold mbind at 1. unfold py_bind, load_builder.
  destruct (h !! b) as [[P'|B|D]|] eqn:Hb; simpl; try done.
  destruct (_product B) as [q|]; [|done].
  unfold mbind, py_bind.
  pose proof (reset_detached p b P h Hdet) as Hreset.
  destruct (reset b h) as [[[]|e] h']; simpl in *; done.
Qed.

Lemma add_to_current_detached (p b : loc) (P : FinanceProduct) key value (h : heap) :
  detached p P b h → detached p P b (add_to_current b key value h).2.
Proof.
  intros Hdet. unfold add_to_current. unfold mbind at 1. unfold py_bind, load_builder.
  destruct (h !! b) as [[P'|B|D]|] eqn:Hb; simpl; try done.
  destruct (_product B) as [q|] eqn:HB; [|done].
  unfold add_product. py_unfold.
  destruct (h !! q) as [[Q|B'|D]|] eqn:Hq; simpl; try done.
  destruct Hdet as [Hp Hcur]. split.
  - rewrite lookup_insert_ne; [done|]. intros ->. by apply (Hcur B).
  - intros B'. rewrite lookup_insert_ne by (intros ->; congruence).
    apply Hcur.
Qed.

Lemma get_detached (yf : Backend) (m : method) (p b : loc) (P : FinanceProduct) (h : heap) :
  detached p P b h → detached p P b (get yf m b h).2.
Proof.
  intros Hdet.
  destruct (get_effect yf m b h) as [->|(B & B' & Hb & HB & ->)]; [done|]. simpl.
  apply (detached_insert_builder _ _ _ B); [done..|].
  rewrite HB. destruct Hdet as [_ Hcur]. by apply Hcur.
Qed.

Lemma do_call_detached (yf : Backend) (c : builder_call) (p b : loc)
    (P : FinanceProduct) (h : heap) :
  detached p P b h → detached p P b (do_call yf b c h).2.
Proof.
  intros Hdet. destruct c as [m| | |key value]; simpl.
  - by apply get_detached.
  - pose proof (stock_detached p b P h Hdet) as Hs.
    unfold mbind, py_bind. by destruct (stock b h) as [[q|e] h'].
  - by apply reset_detached.
  - by apply add_to_current_detached.
Qed.

Lemma after_calls_detached (yf : Backend) (cs : list builder_call) (p b : loc)
    (P : FinanceProduct) (h : heap) :
  detached p P b h → detached p P b (after_calls yf b cs h).
Proof.
  revert h. unfold after_calls.
  induction cs as [|c cs IH]; intros h Hdet; simpl; [done|].
  by apply IH, do_call_detached.
Qed.

(** C9.  [return_product] only reads: two reads in a row give the same dict
    and change nothing.  What empties the builder is [stock], by putting a
    new [FinanceProduct] in place of the old one; the product it handed out
    keeps its contents through every later call on the builder. *)
Theorem collected_product_is_stable (yf : Backend) (cs : list builder_call)
    (h : heap) (b p : loc) (B : DesignerFinanceCollector) (P : FinanceProduct) :
  h !! b = Some (ObjBuilder B) →
  _product B = Some p →
  h !! p = Some (ObjProduct P) →
  (d1 ← return_product p; d2 ← return_product p; mret (d1, d2)) h =
    (Return (product_parts P, product_parts P), h) ∧
  ∃ (h1 : heap) (p' : loc),
    stock b h = (Return p, h1) ∧
    h1 !! p = Some (ObjProduct P) ∧
    p' ≠ p ∧ h !! p' = None ∧
    h1 !! b = Some (ObjBuilder (set_product (Some p') B)) ∧
    h1 !! p' = Some (ObjProduct (MkFinanceProduct [])) ∧
    return_product p (after_calls yf b cs h1) =
      (Return (product_parts P), after_calls yf b cs h1).
Proof.
  intros Hb HB Hp.
  assert (Hpb : p ≠ b) by (intros ->; congruence).
  set (p' := fresh (dom h)).
  set (h1 := <[b := ObjBuilder (set_product (Some p') B)]>
               (<[p' := ObjProduct (MkFinanceProduct [])]> h)).
  assert (Hp'p : p' ≠ p) by (by eapply fresh_ne).
  assert (Hp'b : p' ≠ b) by (by eapply fresh_ne).
  assert (Hp1 : h1 !! p = Some (ObjProduct P)).
  { unfold h1. by rewrite !lookup_insert_ne. }
  assert (Hb1 : h1 !! b = Some (ObjBuilder (set_product (Some p') B)))
    by apply lookup_insert_eq.
  split.
  - unfold mbind, py_bind. rewrite !(return_product_spec _ _ _ Hp). done.
  - exists h1, p'. split_and!; try done.
    + by apply stock_spec.
    + apply fresh_unused.
    + unfold h1. rewrite lookup_insert_ne by done. apply lookup_insert_eq.
    + apply return_product_spec.
      apply (after_calls_detached yf cs p b P h1). split; [done|].
      intros B'. rewrite Hb1. intros [= <-]. simpl. congruence.
Qed.

Lemma collected_product_is_stable_witness :
  (d1 ← return_product 2%positive; d2 ← return_product 2%positive; mret (d1, d2)) loaded_heap =
    (Return ([("get_splits", PyStr "2:1"); ("get_actions", PyStr "none")],
             [("get_splits", PyStr "2:1"); ("get_actions", PyStr "none")]), loaded_heap) ∧
  ∃ (h1 : heap) (p' : loc),
    stock 1%positive loaded_heap = (Return 2%positive, h1) ∧
    return_product 2%positive
      (after_calls echo_backend 1%positive
         [CallGet dividends; CallAdd (fn "get_info" 9) (PyStr "x"); CallStock;
          CallReset; CallGet (chart_history default_history_args)] h1) =
      (Return [("get_splits", PyStr "2:1"); ("get_actions", PyStr "none")],
       after_calls echo_backend 1%positive
         [CallGet dividends; CallAdd (fn "get_info" 9) (PyStr "x"); CallStock;
          CallReset; CallGet (chart_history default_history_args)] h1).
Proof.
  destruct (collected_product_is_stable echo_backend
              [CallGet dividends; CallAdd (fn "get_info" 9) (PyStr "x"); CallStock;
               CallReset; CallGet (chart_history default_history_args)]
              loaded_heap 1%positive 2%positive
              (MkDesigner ["AAPL"; "MSFT"]
                 (DictOfTicker [("AAPL", "AAPL"); ("MSFT", "MSFT")])
                 (PyDataFrame [] []) [] (Some 2%positive))
              (MkFinanceProduct [("get_splits", PyStr "2:1"); ("get_actions", PyStr "none")])
              eq_refl eq_refl eq_refl)
    as (Hread & h1 & p' & Hstock & _ & _ & _ & _ & _ & Hstable).
  split; [exact Hread|]. exists h1, p'. split; [exact Hstock|exact Hstable].
Defined.

(** ** The fan-out helper and the builder's methods *)

Lemma dict_comprehension_total {V : Type} (f : string → outcome V) (g : string → V)
    (ks : list string) (acc : pydict V) :
  (∀ k, k ∈ ks → f k = Return (g k)) →
  dict_comprehension f ks acc = Return (foldl (λ d k, setitem k (g k) d) acc ks).
Proof.
  revert acc. induction ks as [|k ks IH]; intros acc Hf; simpl; [done|].
  rewrite (Hf k) by (apply elem_of_cons; by left). simpl.
  apply IH. intros k' Hk'. apply Hf. apply elem_of_cons. by right.
Qed.

Lemma keys_fan_out {V : Type} (g : string → V) (ks : list string) (acc : pydict V) :
  keys (foldl (λ d k, setitem k (g k) d) acc ks) = foldl add_key (keys acc) ks.
Proof.
  revert acc. induction ks as [|k ks IH]; intros acc; simpl; [done|].
  rewrite IH. f_equal. unfold add_key. case_decide.
  - by apply keys_setitem_old.
  - by apply keys_setitem_new.
Qed.

Lemma getitem_fan_out {V : Type} (g : string → V) (ks : list string) (acc : pydict V) (k : string) :
  getitem k (foldl (λ d k, setitem k (g k) d) acc ks) =
    if decide (k ∈ ks) then Some (g k) else getitem k acc.
Proof.
  revert acc. induction ks as [|k' ks IH]; intros acc.
  - by rewrite decide_False by apply not_elem_of_nil.
  - cbn [foldl]. rewrite IH, getitem_setitem.
    destruct (decide (k ∈ ks)) as [Hin|Hin].
    + rewrite decide_True; [done|]. apply elem_of_cons. by right.
    + destruct (decide (k' = k)) as [->|Hne].
      * rewrite decide_True; [done|]. apply elem_of_cons. by left.
      * rewrite decide_False; [done|]. intros [?|?]%elem_of_cons; congruence.
Qed.

(** X6.  Handed a [yf.Tickers] session that knows every keyword, and a backend
    that answers, [all_trickers] returns one entry per keyword, each holding
    the attribute fetched for it. *)
Lemma all_trickers_session (yf : Backend) (symbols kws : list string) (func : string)
    (g : string → pyvalue) :
  (∀ k, k ∈ kws → k ∈ symbols) →
  (∀ k, k ∈ kws → ticker_attr yf k func = Return (g k)) →
  ∃ d, all_trickers yf (YfTickers symbols) kws func = Return d ∧
       keys d = insertion_order kws ∧
       ∀ k, getitem k d = if decide (k ∈ kws) then Some (g k) else None.
Proof.
  intros Hsym Hfetch. eexists. split_and!.
  - unfold all_trickers. apply (dict_comprehension_total _ g).
    intros k Hk. simpl. unfold getattr_field.
    rewrite decide_True by (by apply Hsym). simpl. by apply Hfetch.
  - by rewrite keys_fan_out, foldl_add_key.
  - intros k. by rewrite getitem_fan_out.
Qed.

Lemma all_trickers_dict (yf : Backend) (d : pydict string) (k : string)
    (kws : list string) (func : string) :
  all_trickers yf (DictOfTicker d) (k :: kws) func = Raise (AttributeError "dict" "tickers").
Proof. reflexivity. Qed.

Lemma new_DesignerFinanceCollector_spec (kws : list string) (h : heap) :
  let b := fresh (dom h) in
  let B := MkDesigner kws (DictOfTicker (ticker_dict kws)) (PyDataFrame [] []) [] None in
  let h0 := <[b := ObjBuilder B]> h in
  let p := fresh (dom h0) in
  new_DesignerFinanceCollector kws h =
    (Return b, <[b := ObjBuilder (set_product (Some p) B)]>
                 (<[p := ObjProduct (MkFinanceProduct [])]> h0)).
Proof.
  intros b B h0 p. subst b B h0 p.
  unfold new_DesignerFinanceCollector, alloc. unfold mbind, py_bind.
  erewrite reset_spec by apply lookup_insert_eq. done.
Qed.

(** C3.  On the session handle a builder makes for itself, a builtin dict,
    [all_trickers] raises as soon as the keyword list has an element: the
    dict has no attribute [tickers]. *)
Theorem all_trickers_on_builder_handle (yf : Backend) (k : string) (kws : list string)
    (func : string) (h : heap) :
  ∃ (b : loc) (h' : heap) (B : DesignerFinanceCollector),
    new_DesignerFinanceCollector (k :: kws) h = (Return b, h') ∧
    h' !! b = Some (ObjBuilder B) ∧
    keyword_list B = k :: kws ∧
    all_trickers yf (tickers B) (keyword_list B) func =
      Raise (AttributeError "dict" "tickers").
Proof.
  eexists _, _, _. split_and!.
  - apply new_DesignerFinanceCollector_spec.
  - apply lookup_insert_eq.
  - done.
  - done.
Qed.

Lemma get_keeps_products (yf : Backend) (m : method) (b l : loc) (P : FinanceProduct) (h : heap) :
  h !! l = Some (ObjProduct P) → (get yf m b h).2 !! l = Some (ObjProduct P).
Proof.
  intros Hl. destruct (get_effect yf m b h) as [->|(B & B' & Hb & _ & ->)]; [done|].
  simpl. rewrite lookup_insert_ne; [done|]. intros ->. congruence.
Qed.

Lemma get_keeps_current (yf : Backend) (m : method) (b : loc)
    (B : DesignerFinanceCollector) (h : heap) :
  h !! b = Some (ObjBuilder B) →
  ∃ B', (get yf m b h).2 !! b = Some (ObjBuilder B') ∧ _product B' = _product B.
Proof.
  intros Hb. destruct (get_effect yf m b h) as [->|(B0 & B' & Hb' & HB & ->)].
  - by exists B.
  - exists B'. simpl. split; [apply lookup_insert_eq|]. congruence.
Qed.

(** Whatever method of the builder ran, returning or raising, the [stock]
    read after it hands out the product with the contents it had before. *)
Lemma get_then_stock_unchanged (yf : Backend) (m : method) (h : heap) (b p : loc)
    (B : DesignerFinanceCollector) (P : FinanceProduct) :
  h !! b = Some (ObjBuilder B) →
  _product B = Some p →
  h !! p = Some (ObjProduct P) →
  ∃ h2 : heap,
    stock b (get yf m b h).2 = (Return p, h2) ∧
    return_product p h2 = (Return (product_parts P), h2).
Proof.
  intros Hb HB Hp.
  destruct (get_keeps_current yf m b B h Hb) as (B' & Hb' & HB').
  pose proof (get_keeps_products yf m b p P h Hp) as Hp'.
  assert (Hpb : p ≠ b) by (intros ->; congruence).
  eexists. split.
  - apply (stock_spec _ b p B' Hb'). congruence.
  - apply return_product_spec. rewrite lookup_insert_ne by done.
    by rewrite lookup_insert_ne by (by eapply fresh_ne).
Qed.

(** C1.  The specification has every builder method file its result in the
    product under the method's own name.  The code does not: on a builder
    over AAPL and MSFT, [get_dividends] raises and [stock] hands out an empty
    product; on a builder whose [tickers] is a [yf.Tickers] session,
    [get_dividends] returns, its result goes to the attribute [dict], and
    [stock] hands out an empty product all the same. *)
Theorem get_dividends_not_collected (yf : Backend) (h : heap) :
  (∃ (b p : loc) (h1 h2 : heap),
     new_DesignerFinanceCollector ["AAPL"; "MSFT"] h = (Return b, h1) ∧
     get_dividends yf b h1 = (Raise (AttributeError "dict" "tickers"), h1) ∧
     stock b h1 = (Return p, h2) ∧
     return_product p h2 = (Return [], h2)) ∧
  (∃ (h1 h2 : heap) (B : DesignerFinanceCollector),
     get_dividends echo_backend 1%positive session_heap = (Return tt, h1) ∧
     h1 !! 1%positive = Some (ObjBuilder B) ∧
     dict B = [("AAPL", PyStr "AAPL.dividends"); ("MSFT", PyStr "MSFT.dividends")] ∧
     stock 1%positive h1 = (Return 2%positive, h2) ∧
     return_product 2%positive h2 = (Return [], h2)).
Proof.
  split.
  - pose proof (new_DesignerFinanceCollector_spec ["AAPL"; "MSFT"] h) as Hnew.
    cbv zeta in Hnew.
    set (b := fresh (dom h)) in *.
    set (B := MkDesigner ["AAPL"; "MSFT"] (DictOfTicker (ticker_dict ["AAPL"; "MSFT"]))
                (PyDataFrame [] []) [] None) in *.
    set (h0 := <[b := ObjBuilder B]> h) in *.
    set (p := fresh (dom h0)) in *.
    set (h1 := <[b := ObjBuilder (set_product (Some p) B)]>
                 (<[p := ObjProduct (MkFinanceProduct [])]> h0)) in *.
    assert (Hpb : p ≠ b) by (eapply fresh_ne; apply lookup_insert_eq).
    assert (Hb1 : h1 !! b = Some (ObjBuilder (set_product (Some p) B)))
      by apply lookup_insert_eq.
    assert (Hp1 : h1 !! p = Some (ObjProduct (MkFinanceProduct []))).
    { unfold h1. rewrite lookup_insert_ne by done. apply lookup_insert_eq. }
    exists b, p, h1. eexists. split_and!.
    + exact Hnew.
    + unfold get_dividends, assign_all_trickers. py_unfold. by rewrite Hb1.
    + by apply (stock_spec h1 b p _ Hb1).
    + apply (return_product_spec _ p (MkFinanceProduct [])).
      rewrite lookup_insert_ne by done.
      by rewrite lookup_insert_ne by (by eapply fresh_ne).
  - eexists _, _, _. split_and!; [vm_compute; reflexivity..].
Qed.

(** * Further properties of [finance_collector.py] *)

(** ** Forwarding through the Director *)

Lemma call_method_builder (name : string) (body : loc → py unit) (h : heap) (b : loc)
    (B : DesignerFinanceCollector) :
  h !! b = Some (ObjBuilder B) → call_method (Some b) name body h = body b h.
Proof.
  intros Hb. unfold call_method, load_builder, mbind, py_bind. by rewrite Hb.
Qed.

Lemma call_method_other (name : string) (body : loc → py unit) (h : heap) (l : loc)
    (o : object) :
  h !! l = Some o → (∀ B, o ≠ ObjBuilder B) →
  call_method (Some l) name body h = (Raise (AttributeError (class_name o) name), h).
Proof.
  intros Hl Ho. unfold call_method, load_builder, mbind, py_bind. rewrite Hl.
  destruct o as [P|B|D]; [done| |done]. by destruct (Ho B).
Qed.

(** X1.  On a Director with a builder installed, each [find_*] method does
    exactly what the builder's matching [get_*] method does, outcome and heap,
    and the Director object itself stays as it was. *)
Theorem find_forwards (yf : Backend) (m : method) (h : heap) (d b : loc)
    (D : FinanceCollector) (B : DesignerFinanceCollector) :
  h !! d = Some (ObjDirector D) →
  _builder D = Some b →
  h !! b = Some (ObjBuilder B) →
  find yf m d h = get yf m b h ∧
  (find yf m d h).2 !! d = Some (ObjDirector D).
Proof.
  intros Hd HD Hb.
  assert (Hfind : find yf m d h = get yf m b h).
  { destruct m; simpl; unfold_find; unfold mbind, py_bind;
      rewrite (builder_spec _ _ _ Hd), HD; by rewrite (call_method_builder _ _ _ _ _ Hb). }
  split; [done|]. rewrite Hfind.
  destruct (get_effect yf m b h) as [->|(B0 & B' & _ & _ & ->)]; [done|].
  simpl. rewrite lookup_insert_ne; [done|]. intros ->. congruence.
Qed.

Lemma find_forwards_witness :
  find echo_backend dividends 3%positive session_director_heap =
    get echo_backend dividends 1%positive session_director_heap ∧
  (find echo_backend dividends 3%positive session_director_heap).1 = Return tt ∧
  (find echo_backend dividends 3%positive session_director_heap).2 !! 3%positive =
    Some (ObjDirector (MkCollector (Some 1%positive))).
Proof.
  assert (Hd : session_director_heap !! 3%positive =
               Some (ObjDirector (MkCollector (Some 1%positive))))
    by (vm_compute; reflexivity).
  assert (Hb : session_director_heap !! 1%positive =
               Some (ObjBuilder
                 (MkDesigner ["AAPL"; "MSFT"] (YfTickers ["AAPL"; "MSFT"])
                    (PyDataFrame [] []) [] (Some 2%positive))))
    by (vm_compute; reflexivity).
  destruct (find_forwards echo_backend dividends session_director_heap
              3%positive 1%positive _ _ Hd eq_refl Hb) as [Hfind Hdir].
  split_and!; [exact Hfind| |exact Hdir].
  vm_compute. reflexivity.
Defined.

(** X2.  When the Director's [builder] holds an object that is not a builder,
    each [find_*] method raises the [AttributeError] naming that object's
    class and the [get_*] method looked up, and changes nothing. *)
Theorem find_on_wrong_object (yf : Backend) (m : method) (h : heap) (d l : loc)
    (D : FinanceCollector) (o : object) :
  h !! d = Some (ObjDirector D) →
  _builder D = Some l →
  h !! l = Some o →
  (∀ B, o ≠ ObjBuilder B) →
  find yf m d h = (Raise (AttributeError (class_name o) (get_name m)), h).
Proof.
  intros Hd HD Hl Ho.
  destruct m; simpl; unfold_find; unfold mbind, py_bind;
    rewrite (builder_spec _ _ _ Hd), HD; by rewrite (call_method_other _ _ _ _ _ Hl Ho).
Qed.

Lemma find_on_wrong_object_witness :
  find echo_backend splits 3%positive misconfigured_heap =
    (Raise (AttributeError "FinanceProduct" "get_splits"), misconfigured_heap).
Proof.
  assert (Hd : misconfigured_heap !! 3%positive =
               Some (ObjDirector (MkCollector (Some 2%positive))))
    by (vm_compute; reflexivity).
  assert (Hl : misconfigured_heap !! 2%positive =
               Some (ObjProduct (MkFinanceProduct
                 [("get_splits", PyStr "2:1"); ("get_actions", PyStr "none")])))
    by (vm_compute; reflexivity).
  apply (find_on_wrong_object echo_backend splits misconfigured_heap
           3%positive 2%positive _ _ Hd eq_refl Hl).
  intros B. discriminate.
Defined.

(** ** Failure leaves no trace *)

Lemma find_cases (yf : Backend) (m : method) (d : loc) (h : heap) :
  (∃ e, find yf m d h = (Raise e, h)) ∨ (∃ b, find yf m d h = get yf m b h).
Proof.
  destruct (h !! d) as [[P|B|D]|] eqn:Hd.
  3: { destruct (_builder D) as [l|] eqn:HD.
       - destruct (h !! l) as [[P|B|D']|] eqn:Hl.
         2: { right. exists l. by apply (find_forwards yf m h d l D B). }
         1,2: left; eexists; by eapply (find_on_wrong_object yf m h d l D).
         left. eexists.
         destruct m; simpl; unfold_find; unfold mbind, py_bind;
           rewrite (builder_spec _ _ _ Hd), HD;
           unfold call_method, load_builder, mbind, py_bind; by rewrite Hl.
       - left. eexists. apply find_unconfigured. by destruct D; simpl in *; subst. }
  all: left; eexists; destruct m; simpl; unfold_find;
    unfold mbind, py_bind, builder, load_director, mbind, py_bind; by rewrite Hd.
Qed.

(** X5.  A [get_*] or [find_*] method that raises leaves the heap exactly as
    it found it: no partial result is stored. *)
Theorem raise_leaves_heap (yf : Backend) (m : method) (l : loc) (h h' : heap) (e : exn) :
  (get yf m l h = (Raise e, h') ∨ find yf m l h = (Raise e, h')) →
  h' = h.
Proof.
  assert (Hget : ∀ b h1, get yf m b h = (Raise e, h1) → h1 = h).
  { intros b h1 Hr.
    destruct (get_effect yf m b h) as [Hsame|(B & B' & _ & _ & Hret)].
    - by rewrite Hr in Hsame.
    - rewrite Hr in Hret. discriminate. }
  intros [Hr|Hr]; [by eapply Hget|].
  destruct (find_cases yf m l h) as [[e' He']|[b Hb]].
  - rewrite Hr in He'. congruence.
  - rewrite Hr in Hb. symmetry in Hb. by eapply Hget.
Qed.

Lemma raise_leaves_heap_witness :
  get partial_backend dividends 1%positive session_heap =
    (Raise (BackendError "no data"), session_heap).
Proof.
  assert (Hr : ∃ h', get partial_backend dividends 1%positive session_heap =
                     (Raise (BackendError "no data"), h')).
  { eexists. vm_compute. reflexivity. }
  destruct Hr as [h' Hr].
  rewrite <- (raise_leaves_heap partial_backend dividends 1%positive session_heap h'
                (BackendError "no data") (or_introl Hr)) at 2.
  exact Hr.
Defined.

(** ** The builder the constructor makes *)

Lemma getitem_ticker_dict (kws : list string) (k : string) :
  getitem k (ticker_dict kws) = if decide (k ∈ kws) then Some k else None.
Proof. unfold ticker_dict. apply (getitem_fan_out (λ k, k) kws [] k). Qed.

Lemma keys_ticker_dict (kws : list string) : keys (ticker_dict kws) = insertion_order kws.
Proof.
  unfold ticker_dict. by rewrite (keys_fan_out (λ k, k) kws []), foldl_add_key.
Qed.

(** X9.  The constructor makes exactly two new objects and touches no other:
    a builder holding the keyword list, a dict with one [yf.Ticker] per
    distinct keyword, each made from that keyword, in order of first
    occurrence, an empty [dict] attribute, and an empty product of its own.
    Every location other than these two holds what it held before, or still
    nothing. *)
Theorem new_builder_wellformed (kws : list string) (h : heap) :
  ∃ (b p : loc) (h' : heap) (tk : pydict string),
    new_DesignerFinanceCollector kws h = (Return b, h') ∧
    h !! b = None ∧ h !! p = None ∧ b ≠ p ∧
    h' !! b = Some (ObjBuilder
      (MkDesigner kws (DictOfTicker tk) (PyDataFrame [] []) [] (Some p))) ∧
    h' !! p = Some (ObjProduct (MkFinanceProduct [])) ∧
    keys tk = insertion_order kws ∧
    (∀ k, getitem k tk = if decide (k ∈ kws) then Some k else None) ∧
    (∀ l, l ≠ b → l ≠ p → h' !! l = h !! l) ∧
    dom h' = {[b; p]} ∪ dom h ∧
    size h' = S (S (size h)).
Proof.
  pose proof (new_DesignerFinanceCollector_spec kws h) as Hnew. cbv zeta in Hnew.
  set (b := fresh (dom h)) in *.
  set (B := MkDesigner kws (DictOfTicker (ticker_dict kws)) (PyDataFrame [] []) [] None) in *.
  set (h0 := <[b := ObjBuilder B]> h) in *.
  set (p := fresh (dom h0)) in *.
  assert (Hb : h !! b = None) by apply fresh_unused.
  assert (Hp0 : h0 !! p = None) by apply fresh_unused.
  assert (Hpb : p ≠ b).
  { intros Heq. rewrite Heq in Hp0. unfold h0 in Hp0. by rewrite lookup_insert_eq in Hp0. }
  assert (Hp : h !! p = None).
  { unfold h0 in Hp0. by rewrite lookup_insert_ne in Hp0. }
  exists b, p. eexists. exists (ticker_dict kws). split_and!.
  - exact Hnew.
  - done.
  - done.
  - done.
  - apply lookup_insert_eq.
  - rewrite lookup_insert_ne by done. apply lookup_insert_eq.
  - apply keys_ticker_dict.
  - apply getitem_ticker_dict.
  - intros l Hlb Hlp. unfold h0. by rewrite !lookup_insert_ne.
  - unfold h0. rewrite !dom_insert_L. apply set_eq. intros x.
    rewrite !elem_of_union, !elem_of_singleton.
    split; [intros [?|[?|[?|?]]]|intros [[?|?]|?]]; auto.
  - rewrite map_size_insert_Some
      by (eexists; rewrite lookup_insert_ne by done; apply lookup_insert_eq).
    rewrite map_size_insert_None by done.
    unfold h0. by rewrite map_size_insert_None.
Qed.

Lemma get_on_dict_handle (yf : Backend) (m : method) (h : heap) (b : loc)
    (B : DesignerFinanceCollector) (d : pydict string) (k : string) (kws : list string) :
  h !! b = Some (ObjBuilder B) →
  tickers B = DictOfTicker d →
  keyword_list B = k :: kws →
  get yf m b h = (Raise (AttributeError "dict" (dict_missing_attr m)), h).
Proof.
  intros Hb Ht Hk.
  destruct m; simpl; unfold_get; unfold get_chart_history, assign_all_trickers;
    py_unfold; by rewrite Hb, Ht, ?Hk.
Qed.

(** X3.  On the builder the constructor makes over a keyword list with at
    least one element, every one of the twenty-one [get_*] methods raises an
    [AttributeError] on the builtin dict in [self.tickers] and changes
    nothing. *)
Theorem get_on_constructed_builder (yf : Backend) (m : method) (k : string)
    (kws : list string) (h : heap) :
  ∃ (b : loc) (h' : heap),
    new_DesignerFinanceCollector (k :: kws) h = (Return b, h') ∧
    get yf m b h' = (Raise (AttributeError "dict" (dict_missing_attr m)), h').
Proof.
  eexists _, _. split; [apply new_DesignerFinanceCollector_spec|].
  eapply get_on_dict_handle; [apply lookup_insert_eq|done..].
Qed.

Lemma get_on_empty_keywords (yf : Backend) (m : method) (h : heap) (b : loc)
    (B : DesignerFinanceCollector) (d : pydict string) :
  h !! b = Some (ObjBuilder B) →
  tickers B = DictOfTicker d →
  keyword_list B = [] →
  dict B = [] →
  get yf m b h =
    (match fan_out_attr m with
     | Some _ => Return tt
     | None => Raise (AttributeError "dict" "history")
     end, h).
Proof.
  intros Hb Ht Hk Hd.
  assert (Hid : set_dict [] B = B) by (destruct B; simpl in *; by subst).
  destruct m; simpl; unfold_get; unfold get_chart_history, assign_all_trickers;
    py_unfold; rewrite Hb, Ht, ?Hk; simpl; try done;
    rewrite Hid; f_equal; by apply insert_id.
Qed.

(** X4.  Over the empty keyword list the fan-out never reaches the dict: the
    twenty fan-out methods of a newly constructed builder return normally and
    leave the heap as it is ([self.dict] stays empty), while
    [get_chart_history] still raises. *)
Theorem get_on_empty_builder (yf : Backend) (m : method) (h : heap) :
  ∃ (b : loc) (h' : heap),
    new_DesignerFinanceCollector [] h = (Return b, h') ∧
    get yf m b h' =
      (match fan_out_attr m with
       | Some _ => Return tt
       | None => Raise (AttributeError "dict" "history")
       end, h').
Proof.
  eexists _, _. split; [apply new_DesignerFinanceCollector_spec|].
  eapply get_on_empty_keywords; [apply lookup_insert_eq|done..].
Qed.

(** ** The fan-out helper on a [yf.Tickers] session *)

Lemma all_trickers_session_witness :
  ∃ d, all_trickers echo_backend (YfTickers ["AAPL"; "MSFT"; "GOOG"])
         ["MSFT"; "AAPL"; "MSFT"] "dividends" = Return d ∧
       keys d = ["MSFT"; "AAPL"] ∧
       getitem "AAPL" d = Some (PyStr "AAPL.dividends") ∧
       getitem "GOOG" d = None.
Proof.
  destruct (all_trickers_session echo_backend ["AAPL"; "MSFT"; "GOOG"]
              ["MSFT"; "AAPL"; "MSFT"] "dividends"
              (λ k, PyStr (k +:+ ".dividends")))
    as (d & Hd & Hkeys & Hget).
  - intros k Hk. repeat (apply elem_of_cons in Hk as [->|Hk]; [compute_done|]).
    by apply elem_of_nil in Hk.
  - intros k Hk. repeat (apply elem_of_cons in Hk as [->|Hk]; [reflexivity|]).
    by apply elem_of_nil in Hk.
  - exists d. split_and!; [exact Hd|exact Hkeys|exact (Hget "AAPL")|exact (Hget "GOOG")].
Defined.




(** A keyword that names a method of the namedtuple does not fail: its
    entry holds an attribute of that method. *)
Example all_trickers_tuple_method :
  all_trickers echo_backend (YfTickers ["AAPL"; "MSFT"]) ["AAPL"; "count"] "__name__" =
    Return [("AAPL", PyStr "AAPL.__name__"); ("count", PyStr "count")].
Proof. reflexivity. Qed.

(** ** The builder's [dict] attribute is a single slot *)

Lemma get_fan_out (yf : Backend) (m : method) (func : string) :
  fan_out_attr m = Some func → get yf m = assign_all_trickers yf func.
Proof. destruct m; simpl; intros [= <-]; reflexivity. Qed.

Lemma assign_all_trickers_returns (yf : Backend) (func : string) (b : loc) (h h' : heap) :
  assign_all_trickers yf func b h = (Return tt, h') →
  ∃ B d, h !! b = Some (ObjBuilder B) ∧
         all_trickers yf (tickers B) (keyword_list B) func = Return d ∧
         h' = <[b := ObjBuilder (set_dict d B)]> h.
Proof.
  unfold assign_all_trickers. py_unfold.
  destruct (h !! b) as [[P|B|D]|] eqn:Hb; simpl; try discriminate.
  destruct (all_trickers yf (tickers B) (keyword_list B) func) as [d|e] eqn:Hall;
    simpl; [|discriminate].
  intros [= <-]. by exists B, d.
Qed.

(** X8.  Every fan-out method writes the same attribute [self.dict]: when two
    of them return one after the other, the heap is the one the second would
    have left on its own, the builder holding the second method's mapping and
    nothing of the first. *)
Theorem last_fan_out_wins (yf : Backend) (m1 m2 : method) (func1 func2 : string)
    (b : loc) (h h1 h2 : heap) :
  fan_out_attr m1 = Some func1 →
  fan_out_attr m2 = Some func2 →
  get yf m1 b h = (Return tt, h1) →
  get yf m2 b h1 = (Return tt, h2) →
  get yf m2 b h = (Return tt, h2) ∧
  ∃ B2 : DesignerFinanceCollector,
    h2 !! b = Some (ObjBuilder B2) ∧
    all_trickers yf (tickers B2) (keyword_list B2) func2 = Return (dict B2).
Proof.
  intros Hm1 Hm2. rewrite (get_fan_out yf m1 func1 Hm1), (get_fan_out yf m2 func2 Hm2).
  intros H1 H2.
  destruct (assign_all_trickers_returns _ _ _ _ _ H1) as (B & d1 & Hb & Hd1 & ->).
  destruct (assign_all_trickers_returns _ _ _ _ _ H2) as (B1 & d2 & Hb1 & Hd2 & ->).
  rewrite lookup_insert_eq in Hb1. injection Hb1 as <-. simpl in Hd2.
  split.
  - unfold assign_all_trickers. py_unfold. rewrite Hb, Hd2. simpl.
    by rewrite insert_insert_eq.
  - eexists. split; [apply lookup_insert_eq|]. done.
Qed.

Lemma last_fan_out_wins_witness :
  ∃ h1 h2 : heap,
    get echo_backend splits 1%positive session_heap = (Return tt, h1) ∧
    get echo_backend dividends 1%positive h1 = (Return tt, h2) ∧
    get echo_backend dividends 1%positive session_heap = (Return tt, h2) ∧
    ∃ B2, h2 !! 1%positive = Some (ObjBuilder B2) ∧
          all_trickers echo_backend (tickers B2) (keyword_list B2) "dividends" =
            Return (dict B2).
Proof.
  assert (H1 : get echo_backend splits 1%positive session_heap =
               (Return tt, (get echo_backend splits 1%positive session_heap).2))
    by (vm_compute; reflexivity).
  assert (H2 : get echo_backend dividends 1%positive
                 (get echo_backend splits 1%positive session_heap).2 =
               (Return tt, (get echo_backend dividends 1%positive
                              (get echo_backend splits 1%positive session_heap).2).2))
    by (vm_compute; reflexivity).
  destruct (last_fan_out_wins echo_backend splits dividends "splits" "dividends"
              1%positive session_heap _ _ eq_refl eq_refl H1 H2) as [Hlast HB2].
  eexists _, _. split_and!; [exact H1|exact H2|exact Hlast|exact HB2].
Defined.

(** ** Builders do not interfere *)

Lemma apart_insert_builder (l b : loc) (o : object) (B' : DesignerFinanceCollector) (h : heap) :
  apart l o b h → _product B' ≠ Some l → apart l o b (<[b := ObjBuilder B']> h).
Proof.
  intros (Hl & Hlb & Hcur) HB'. split_and!; [|done|].
  - by rewrite lookup_insert_ne.
  - intros B''. rewrite lookup_insert_eq. by intros [= <-].
Qed.

Lemma apart_alloc (l b : loc) (o : object) (P' : FinanceProduct) (h : heap) :
  apart l o b h → apart l o b (<[fresh (dom h) := ObjProduct P']> h).
Proof.
  intros (Hl & Hlb & Hcur). split_and!; [|done|].
  - rewrite lookup_insert_ne; [done|]. by eapply fresh_ne.
  - intros B. destruct (decide (fresh (dom h) = b)) as [<-|Hne].
    + by rewrite lookup_insert_eq.
    + rewrite lookup_insert_ne by done. apply Hcur.
Qed.

Lemma reset_apart (l b : loc) (o : object) (h : heap) :
  apart l o b h → apart l o b (reset b h).2.
Proof.
  intros Hap. destruct (h !! b) as [[P'|B|D]|] eqn:Hb.
  2: { rewrite (reset_spec _ _ _ Hb). simpl.
       assert (Hfl : fresh (dom h) ≠ l) by (destruct Hap; by eapply fresh_ne).
       apply apart_insert_builder; [by apply apart_alloc|]. simpl. congruence. }
  all: unfold reset, new_FinanceProduct, alloc; py_unfold.
  1,2: rewrite lookup_insert_ne by (by eapply fresh_ne); rewrite Hb; simpl;
    by apply apart_alloc.
  destruct (decide (fresh (dom h) = b)) as [<-|Hne].
  - rewrite lookup_insert_eq. simpl. by apply apart_alloc.
  - rewrite lookup_insert_ne by done. rewrite Hb. simpl. by apply apart_alloc.
Qed.

Lemma stock_apart (l b : loc) (o : object) (h : heap) :
  apart l o b h → apart l o b (stock b h).2.
Proof.
  intros Hap. unfold stock. unfold mbind at 1. unfold py_bind, load_builder.
  destruct (h !! b) as [[P'|B|D]|] eqn:Hb; simpl; try done.
  destruct (_product B) as [q|]; [|done].
  unfold mbind, py_bind.
  pose proof (reset_apart l b o h Hap) as Hreset.
  destruct (reset b h) as [[[]|e] h']; simpl in *; done.
Qed.

Lemma add_to_current_apart (l b : loc) (o : object) key value (h : heap) :
  apart l o b h → apart l o b (add_to_current b key value h).2.
Proof.
  intros Hap. unfold add_to_current. unfold mbind at 1. unfold py_bind, load_builder.
  destruct (h !! b) as [[P'|B|D]|] eqn:Hb; simpl; try done.
  destruct (_product B) as [q|] eqn:HB; [|done].
  unfold add_product. py_unfold.
  destruct (h !! q) as [[Q|B'|D]|] eqn:Hq; simpl; try done.
  destruct Hap as (Hl & Hlb & Hcur). split_and!; [|done|].
  - rewrite lookup_insert_ne; [done|]. intros ->. by apply (Hcur B).
  - intros B'. rewrite lookup_insert_ne by (intros ->; congruence). apply Hcur.
Qed.

Lemma get_apart (yf : Backend) (m : method) (l b : loc) (o : object) (h : heap) :
  apart l o b h → apart l o b (get yf m b h).2.
Proof.
  intros Hap.
  destruct (get_effect yf m b h) as [->|(B & B' & Hb & HB & ->)]; [done|]. simpl.
  apply apart_insert_builder; [done|].
  rewrite HB. destruct Hap as (_ & _ & Hcur). by apply Hcur.
Qed.

Lemma do_call_apart (yf : Backend) (c : builder_call) (l b : loc) (o : object) (h : heap) :
  apart l o b h → apart l o b (do_call yf b c h).2.
Proof.
  intros Hap. destruct c as [m| | |key value]; simpl.
  - by apply get_apart.
  - pose proof (stock_apart l b o h Hap) as Hs.
    unfold mbind, py_bind. by destruct (stock b h) as [[q|e] h'].
  - by apply reset_apart.
  - by apply add_to_current_apart.
Qed.

(** X10.  Whatever is done with one builder ([get_*], [stock], [reset],
    [add_product] on its current product, in any number and order), every
    object that is neither that builder nor its current product stays as it
    was: other builders, their products, products handed out before, the
    Director. *)
Theorem calls_leave_others (yf : Backend) (cs : list builder_call) (l b : loc)
    (o : object) (h : heap) :
  h !! l = Some o →
  l ≠ b →
  (∀ B, h !! b = Some (ObjBuilder B) → _product B ≠ Some l) →
  after_calls yf b cs h !! l = Some o.
Proof.
  intros Hl Hlb Hcur.
  assert (Hap : apart l o b h) by done.
  clear Hl Hlb Hcur. revert h Hap. unfold after_calls.
  induction cs as [|c cs IH]; intros h Hap; simpl.
  - by destruct Hap.
  - by apply IH, do_call_apart.
Qed.

Lemma calls_leave_others_witness :
  after_calls echo_backend 4%positive
    [CallAdd (fn "get_info" 5) (PyStr "x"); CallStock; CallGet dividends; CallReset]
    two_builders_heap !! 2%positive =
  Some (ObjProduct (MkFinanceProduct
    [("get_splits", PyStr "2:1"); ("get_actions", PyStr "none")])).
Proof.
  apply (calls_leave_others echo_backend
           [CallAdd (fn "get_info" 5) (PyStr "x"); CallStock; CallGet dividends; CallReset]
           2%positive 4%positive).
  - vm_compute. reflexivity.
  - discriminate.
  - intros B HB.
    assert (Hb : two_builders_heap !! 4%positive =
                 Some (ObjBuilder (MkDesigner ["GOOG"] (DictOfTicker [("GOOG", "GOOG")])
                   (PyDataFrame [] []) [] (Some 5%positive))))
      by (vm_compute; reflexivity).
    pose proof (eq_trans (eq_sym Hb) HB) as Heq. injection Heq as <-. discriminate.
Defined.

(** ** More on the product *)

(** X11.  Adding under two different names gives the same mapping in either
    order; only the order of the keys, and with it the summary, depends on
    which of two new names was added first. *)
Theorem add_order (h : heap) (p : loc) (P : FinanceProduct) (f g : callable)
    (v w : pyvalue) :
  h !! p = Some (ObjProduct P) →
  __name__ f ≠ __name__ g →
  ∃ (h1 h2 : heap) (d1 d2 : pydict pyvalue),
    (add_product p f v;; add_product p g w) h = (Return tt, h1) ∧
    (add_product p g w;; add_product p f v) h = (Return tt, h2) ∧
    return_product p h1 = (Return d1, h1) ∧
    return_product p h2 = (Return d2, h2) ∧
    (∀ k, getitem k d1 = getitem k d2) ∧
    (__name__ f ∉ keys (product_parts P) → __name__ g ∉ keys (product_parts P) →
     keys d1 = keys (product_parts P) ++ [__name__ f; __name__ g] ∧
     keys d2 = keys (product_parts P) ++ [__name__ g; __name__ f]).
Proof.
  intros Hp Hfg.
  set (d := product_parts P).
  exists (<[p := ObjProduct (MkFinanceProduct (setitem (__name__ g) w (setitem (__name__ f) v d)))]> h),
         (<[p := ObjProduct (MkFinanceProduct (setitem (__name__ f) v (setitem (__name__ g) w d)))]> h),
         (setitem (__name__ g) w (setitem (__name__ f) v d)),
         (setitem (__name__ f) v (setitem (__name__ g) w d)).
  split_and!.
  - unfold mbind, py_bind. rewrite (add_product_spec _ _ _ _ _ Hp).
    erewrite add_product_spec by apply lookup_insert_eq. simpl. by rewrite insert_insert_eq.
  - unfold mbind, py_bind. rewrite (add_product_spec _ _ _ _ _ Hp).
    erewrite add_product_spec by apply lookup_insert_eq. simpl. by rewrite insert_insert_eq.
  - apply (return_product_spec _ p (MkFinanceProduct _)), lookup_insert_eq.
  - apply (return_product_spec _ p (MkFinanceProduct _)), lookup_insert_eq.
  - intros k. rewrite !getitem_setitem.
    destruct (decide (__name__ g = k)) as [Hg|Hg];
      destruct (decide (__name__ f = k)) as [Hf|Hf]; try done. congruence.
  - intros Hf Hg. split.
    + rewrite (keys_setitem_new (__name__ g)).
      * rewrite keys_setitem_new by done. by rewrite <- app_assoc.
      * rewrite elem_of_keys_setitem. intros [?|?]; [congruence|done].
    + rewrite (keys_setitem_new (__name__ f)).
      * rewrite keys_setitem_new by done. by rewrite <- app_assoc.
      * rewrite elem_of_keys_setitem. intros [?|?]; [congruence|done].
Qed.

Lemma add_order_witness :
  ∃ (h1 h2 : heap) (d1 d2 : pydict pyvalue),
    (add_product 2%positive (fn "get_info" 1) (PyStr "i");;
     add_product 2%positive (fn "get_options" 2) (PyStr "o")) loaded_heap = (Return tt, h1) ∧
    (add_product 2%positive (fn "get_options" 2) (PyStr "o");;
     add_product 2%positive (fn "get_info" 1) (PyStr "i")) loaded_heap = (Return tt, h2) ∧
    (∀ k, getitem k d1 = getitem k d2) ∧
    keys d1 = ["get_splits"; "get_actions"; "get_info"; "get_options"] ∧
    keys d2 = ["get_splits"; "get_actions"; "get_options"; "get_info"].
Proof.
  assert (Hp : loaded_heap !! 2%positive =
               Some (ObjProduct (MkFinanceProduct
                 [("get_splits", PyStr "2:1"); ("get_actions", PyStr "none")])))
    by (vm_compute; reflexivity).
  destruct (add_order loaded_heap 2%positive _ (fn "get_info" 1) (fn "get_options" 2)
              (PyStr "i") (PyStr "o") Hp)
    as (h1 & h2 & d1 & d2 & H1 & H2 & _ & _ & Hget & Hkeys).
  { discriminate. }
  destruct Hkeys as [Hk1 Hk2]; [compute_done..|].
  exists h1, h2, d1, d2. split_and!; [exact H1|exact H2|exact Hget|exact Hk1|exact Hk2].
Defined.

(** X12.  After [add_product] the summary lists the keys the product had,
    with the added name appended when it is new; adding under a name already
    stored leaves the summary as it was. *)
Theorem summary_after_add (h : heap) (p : loc) (P : FinanceProduct) (key : callable)
    (value : pyvalue) :
  h !! p = Some (ObjProduct P) →
  ∃ h' : heap,
    add_product p key value h = (Return tt, h') ∧
    list_product_parts p h' =
      (Return ("Product parts: " +:+
               String.concat ", " (add_key (keys (product_parts P)) (__name__ key))), h') ∧
    (__name__ key ∈ keys (product_parts P) →
     (list_product_parts p h').1 = (list_product_parts p h).1).
Proof.
  intros Hp. eexists. split_and!.
  - by apply add_product_spec.
  - erewrite list_product_parts_spec by apply lookup_insert_eq. simpl.
    unfold add_key. case_decide.
    + by rewrite keys_setitem_old.
    + by rewrite keys_setitem_new.
  - intros Hin. erewrite list_product_parts_spec by apply lookup_insert_eq.
    rewrite (list_product_parts_spec _ _ _ Hp). simpl. by rewrite keys_setitem_old.
Qed.

Lemma summary_after_add_witness :
  ∃ h' : heap,
    add_product 2%positive (fn "get_splits" 9) (PyStr "3:1") loaded_heap = (Return tt, h') ∧
    list_product_parts 2%positive h' =
      (Return "Product parts: get_splits, get_actions", h') ∧
    return_product 2%positive h' =
      (Return [("get_splits", PyStr "3:1"); ("get_actions", PyStr "none")], h').
Proof.
  assert (Hp : loaded_heap !! 2%positive =
               Some (ObjProduct (MkFinanceProduct
                 [("get_splits", PyStr "2:1"); ("get_actions", PyStr "none")])))
    by (vm_compute; reflexivity).
  destruct (summary_after_add loaded_heap 2%positive _ (fn "get_splits" 9) (PyStr "3:1") Hp)
    as (h' & Hadd & Hsum & _).
  exists h'. split_and!; [exact Hadd|exact Hsum|].
  rewrite (add_product_spec _ _ _ _ _ Hp) in Hadd. injection Hadd as <-.
  apply (return_product_spec _ _ (MkFinanceProduct _)), lookup_insert_eq.
Defined.

(** X13.  What [add_product] stores, [return_product] gives back: the value
    under the function's name, every other name as before, every other object
    untouched, and the number of entries grown by one exactly when the name
    is new. *)
Theorem add_then_return (h : heap) (p : loc) (P : FinanceProduct) (key : callable)
    (value : pyvalue) :
  h !! p = Some (ObjProduct P) →
  ∃ (h' : heap) (d : pydict pyvalue),
    (add_product p key value;; return_product p) h = (Return d, h') ∧
    getitem (__name__ key) d = Some value ∧
    (∀ k, k ≠ __name__ key → getitem k d = getitem k (product_parts P)) ∧
    length d = length (add_key (keys (product_parts P)) (__name__ key)) ∧
    (∀ l, l ≠ p → h' !! l = h !! l).
Proof.
  intros Hp.
  set (d := setitem (__name__ key) value (product_parts P)).
  exists (<[p := ObjProduct (MkFinanceProduct d)]> h), d. subst d. split_and!.
  - unfold mbind, py_bind. rewrite (add_product_spec _ _ _ _ _ Hp).
    apply (return_product_spec _ p (MkFinanceProduct _)), lookup_insert_eq.
  - simpl. rewrite getitem_setitem. by rewrite decide_True.
  - intros k Hk. simpl. rewrite getitem_setitem. by rewrite decide_False.
  - simpl. rewrite <- (length_fmap fst). fold (keys (setitem (__name__ key) value (product_parts P))).
    unfold add_key. case_decide.
    + by rewrite keys_setitem_old.
    + by rewrite keys_setitem_new.
  - intros l Hl. by rewrite lookup_insert_ne.
Qed.

Lemma add_then_return_witness :
  ∃ (h' : heap) (d : pydict pyvalue),
    (add_product 2%positive (fn "get_info" 4) (PyStr "i");; return_product 2%positive)
      loaded_heap = (Return d, h') ∧
    getitem "get_info" d = Some (PyStr "i") ∧
    getitem "get_splits" d = Some (PyStr "2:1") ∧
    length d = 3 ∧
    h' !! 1%positive = loaded_heap !! 1%positive.
Proof.
  assert (Hp : loaded_heap !! 2%positive =
               Some (ObjProduct (MkFinanceProduct
                 [("get_splits", PyStr "2:1"); ("get_actions", PyStr "none")])))
    by (vm_compute; reflexivity).
  destruct (add_then_return loaded_heap 2%positive _ (fn "get_info" 4) (PyStr "i") Hp)
    as (h' & d & Hrun & Hnew & Hold & Hlen & Hframe).
  exists h', d. split_and!; [exact Hrun|exact Hnew| |exact Hlen|].
  - rewrite (Hold "get_splits"); [reflexivity|discriminate].
  - apply Hframe. discriminate.
Defined.



(** ** Which attributes a method writes *)

Lemma get_chart_history_returns (yf : Backend) (args : history_args) (b : loc) (h h' : heap) :
  get_chart_history yf args b h = (Return tt, h') →
  ∃ B symbols v, h !! b = Some (ObjBuilder B) ∧
                 tickers B = YfTickers symbols ∧
                 tickers_history yf symbols args = Return v ∧
                 h' = <[b := ObjBuilder (set_df v B)]> h.
Proof.
  unfold get_chart_history. py_unfold.
  destruct (h !! b) as [[P|B|D]|] eqn:Hb; simpl; try discriminate.
  destruct (tickers B) as [d|symbols] eqn:Ht; simpl; [discriminate|].
  destruct (tickers_history yf symbols args) as [v|e] eqn:Hv; simpl; [|discriminate].
  intros [= <-]. by exists B, symbols, v.
Qed.

(** X15.  A [get_*] method that returns has rewritten one attribute of its
    builder and nothing else: [get_chart_history] sets [df] to the history of
    the session's symbols, a fan-out method sets [dict] to its mapping; the
    keyword list, the session handle, the product reference, the other of the
    two attributes, and every other object are as before. *)
Theorem get_writes_one_attribute (yf : Backend) (m : method) (b : loc) (h h' : heap)
    (B : DesignerFinanceCollector) :
  h !! b = Some (ObjBuilder B) →
  get yf m b h = (Return tt, h') →
  ∃ B' : DesignerFinanceCollector,
    h' !! b = Some (ObjBuilder B') ∧
    keyword_list B' = keyword_list B ∧
    tickers B' = tickers B ∧
    _product B' = _product B ∧
    match m with
    | chart_history args =>
        dict B' = dict B ∧
        ∃ symbols, tickers B = YfTickers symbols ∧
                   tickers_history yf symbols args = Return (df B')
    | _ =>
        df B' = df B ∧
        ∃ func, fan_out_attr m = Some func ∧
                all_trickers yf (tickers B) (keyword_list B) func = Return (dict B')
    end ∧
    ∀ l, l ≠ b → h' !! l = h !! l.
Proof.
  intros Hb Hget.
  assert (Hfan : ∀ func, fan_out_attr m = Some func →
            ∃ d, all_trickers yf (tickers B) (keyword_list B) func = Return d ∧
                 h' = <[b := ObjBuilder (set_dict d B)]> h).
  { intros func Hm. rewrite (get_fan_out yf m func Hm) in Hget.
    destruct (assign_all_trickers_returns _ _ _ _ _ Hget) as (B0 & d & Hb0 & Hd & ->).
    assert (B0 = B) by congruence. subst B0. by exists d. }
  destruct m;
    try (edestruct Hfan as (d & Hd & ->); [reflexivity|];
         exists (set_dict d B); split_and!; try done;
         [apply lookup_insert_eq|by eexists|intros l Hl; by rewrite lookup_insert_ne]).
  simpl in Hget.
  destruct (get_chart_history_returns _ _ _ _ _ Hget) as (B0 & symbols & v & Hb0 & Ht & Hv & ->).
  assert (B0 = B) by congruence. subst B0.
  exists (set_df v B). split_and!; try done.
  - apply lookup_insert_eq.
  - by exists symbols.
  - intros l Hl. by rewrite lookup_insert_ne.
Qed.

Lemma get_writes_one_attribute_witness :
  ∃ B' : DesignerFinanceCollector,
    (get echo_backend (chart_history default_history_args) 1%positive session_heap).2
      !! 1%positive = Some (ObjBuilder B') ∧
    dict B' = [] ∧
    df B' = PyDataFrame ["AAPL"; "MSFT"] [] ∧
    _product B' = Some 2%positive.
Proof.
  assert (Hb : session_heap !! 1%positive =
               Some (ObjBuilder (MkDesigner ["AAPL"; "MSFT"] (YfTickers ["AAPL"; "MSFT"])
                 (PyDataFrame [] []) [] (Some 2%positive))))
    by (vm_compute; reflexivity).
  assert (Hget : get echo_backend (chart_history default_history_args) 1%positive session_heap =
                 (Return tt,
                  (get echo_backend (chart_history default_history_args) 1%positive
                     session_heap).2))
    by (vm_compute; reflexivity).
  destruct (get_writes_one_attribute echo_backend (chart_history default_history_args)
              1%positive session_heap _ _ Hb Hget)
    as (B' & Hb' & _ & _ & Hprod & (Hdict & symbols & Hsym & Hdf) & _).
  exists B'. split_and!; [exact Hb'|exact Hdict| |exact Hprod].
  simpl in Hsym. injection Hsym as <-. simpl in Hdf. by injection Hdf.
Defined.
